(** * case-study-bot: the review bot of [src/bot.js]

    A shallow embedding of [bot.js] and the properties of its review-state
    logic.  The JavaScript functions are callback driven: each one issues
    at most one request through the forge client and reacts to the answer
    in a continuation.  Here a function takes the answer of the forge as an
    argument and runs in a small monad that carries

    - the heap of JavaScript arrays (the label list is passed by reference
      and mutated in place),
    - the log of what the function did to the outside world (diagnostics,
      authentication, requests, continuation calls), in order,
    - and the exception that ended the run, if any. *)

From Stdlib Require Import ZArith Ascii String List Bool Lia.
From stdpp Require Import base option list strings gmap.

Local Open Scope string_scope.
Local Open Scope list_scope.
Local Open Scope Z_scope.

(** ** JavaScript values *)

(** Array references. *)
Abbreviation loc := positive.

(** The values that reach the parameters and the configuration.  Numbers
    are the integers (no fraction is ever computed); [VNaN] is kept apart
    because it is falsy.  [VObj] is an object the code never looks into
    (an answer of the forge). *)
Inductive value : Type :=
| VUndefined
| VNull
| VBool (b : bool)
| VNum (n : Z)
| VNaN
| VStr (s : string)
| VObj (o : nat).

#[global] Instance value_eq_dec : EqDecision value.
Proof. solve_decision. Defined.

(** ToBoolean. *)
Definition truthy (v : value) : bool :=
  match v with
  | VUndefined | VNull | VNaN => false
  | VBool b => b
  | VNum n => negb (Z.eqb n 0)
  | VStr EmptyString => false
  | VStr (String _ _) => true
  | VObj _ => true
  end.

(** [v === VBool b]. *)
Definition strict_eq_bool (v : value) (b : bool) : bool :=
  match v with
  | VBool b' => Bool.eqb b' b
  | _ => false
  end.

(** ** Strings

    A string is its sequence of code units; the model covers the code
    units below 256. *)

(** [s.slice(b, e)] for [0 <= b <= e]. *)
Definition slice (b e : nat) (s : string) : string :=
  substring b (e - b) s.

(** White space and line terminators of ECMAScript below 256: TAB, LF, VT,
    FF, CR, SP and NBSP. *)
Definition is_white_space (c : ascii) : bool :=
  match nat_of_ascii c with
  | 9%nat | 10%nat | 11%nat | 12%nat | 13%nat | 32%nat | 160%nat => true
  | _ => false
  end.

Fixpoint trimStart (s : string) : string :=
  match s with
  | EmptyString => EmptyString
  | String c s' => if is_white_space c then trimStart s' else s
  end.

Definition string_rev (s : string) : string :=
  string_of_list_ascii (rev (list_ascii_of_string s)).

(** [s.trim()]. *)
Definition trim (s : string) : string :=
  string_rev (trimStart (string_rev (trimStart s))).

(** *** JSON.stringify on an array of strings *)

Definition hex_digit (n : nat) : ascii :=
  ascii_of_nat (if Nat.ltb n 10 then 48 + n else 87 + n).

Definition quote_char : ascii := ascii_of_nat 34.
Definition backslash : ascii := ascii_of_nat 92.

(** The escape of one code unit inside a JSON string. *)
Definition json_escape (c : ascii) : string :=
  let n := nat_of_ascii c in
  if Nat.eqb n 34 then String backslash (String quote_char EmptyString)
  else if Nat.eqb n 92 then String backslash (String backslash EmptyString)
  else if Nat.eqb n 8 then String backslash "b"
  else if Nat.eqb n 12 then String backslash "f"
  else if Nat.eqb n 10 then String backslash "n"
  else if Nat.eqb n 13 then String backslash "r"
  else if Nat.eqb n 9 then String backslash "t"
  else if Nat.ltb n 32 then
    String backslash
      ("u00" +:+ String (hex_digit (n / 16)) (String (hex_digit (n mod 16)) EmptyString))
  else String c EmptyString.

Fixpoint json_escape_all (s : string) : string :=
  match s with
  | EmptyString => EmptyString
  | String c s' => json_escape c +:+ json_escape_all s'
  end.

Definition json_string (s : string) : string :=
  String quote_char (json_escape_all s +:+ String quote_char EmptyString).

Fixpoint json_elements (l : list string) : string :=
  match l with
  | [] => EmptyString
  | [s] => json_string s
  | s :: l' => json_string s +:+ "," +:+ json_elements l'
  end.

Definition JSON_stringify (l : list string) : string :=
  "[" +:+ json_elements l +:+ "]".

(** ** The world around a call *)

Inductive credentials : Type :=
| OAuth (key secret : value)
| Basic (username password : value).

(** What a run does to the outside, in the order it happens.  A request
    names the method of the client by its path from [github] and carries
    the fields of the message object. *)
Inductive event : Type :=
| Debug (msg : string)
| Authenticate (c : credentials)
| Request (method : list string) (msg : list (string * value))
| Callback (arg : value).

#[global] Instance credentials_eq_dec : EqDecision credentials.
Proof. solve_decision. Defined.
#[global] Instance event_eq_dec : EqDecision event.
Proof. solve_decision. Defined.

(** The answer of the forge to a request: the node-style pair
    [(error, result)] with a truthy [error], or a result. *)
Inductive response (A : Type) : Type :=
| Failed (error : value)
| Succeeded (result : A).
Arguments Failed {A} error.
Arguments Succeeded {A} result.

Inductive exn : Type :=
| TypeError (msg : string)
| Error (msg : string).

Inductive outcome (A : Type) : Type :=
| Return (a : A)
| Throw (e : exn).
Arguments Return {A} a.
Arguments Throw {A} e.

Record state : Type := mkState {
  heap : gmap loc (list string);
  trace : list event
}.

Definition M (A : Type) : Type := state -> outcome A * state.

#[global] Instance M_ret : MRet M := fun A a s => (Return a, s).

#[global] Instance M_bind : MBind M := fun A B k m s =>
  match m s with
  | (Return a, s') => k a s'
  | (Throw e, s') => (Throw e, s')
  end.

Definition throw {A} (e : exn) : M A := fun s => (Throw e, s).

Definition emit (e : event) : M unit :=
  fun s => (Return tt, mkState (heap s) (trace s ++ [e])).

(** Nothing to do. *)
Definition skip : M unit := mret tt.

(** [debug(msg, ...)]. *)
Definition debug (msg : string) : M unit := emit (Debug msg).

(** *** Arrays *)

Definition read_array (l : loc) : M (list string) :=
  fun s => (Return (default [] (heap s !! l)), s).

(** The array literal [[]]: a new object. *)
Definition new_array : M loc :=
  fun s =>
    let l := fresh (dom (heap s)) in
    (Return l, mkState (<[l := []]> (heap s)) (trace s)).

Fixpoint indexOf_from (x : string) (l : list string) (i : Z) : Z :=
  match l with
  | [] => -1
  | y :: l' => if String.eqb y x then i else indexOf_from x l' (i + 1)
  end.

(** [labels.indexOf(x)]. *)
Definition indexOf (labels : loc) (x : string) : M Z :=
  l ← read_array labels; mret (indexOf_from x l 0).

(** [labels.push(x)]: appends in place. *)
Definition push (labels : loc) (x : string) : M unit :=
  fun s =>
    (Return tt,
     mkState (<[labels := default [] (heap s !! labels) ++ [x]]> (heap s)) (trace s)).

(** [labels.removeAt(i)].  [Array.prototype] has no member [removeAt]
    (removal by index is [splice]) and the file adds none, so the member
    is [undefined] and calling it raises a TypeError; the argument is
    evaluated first and has no effect. *)
Definition removeAt (labels : loc) (i : Z) : M unit :=
  throw (TypeError "labels.removeAt is not a function").

(** *** The forge client *)

(** Modelled from the spec: the forge client [github] (the npm package
    [github], no part of the sources).  Its operations are the
    collaborator contract of section 6, as methods of the two name spaces
    [pullRequests] and [issues] that [bot.js] reaches them through (line 39
    reads [github.pullRequests.getAll]); a name space is a plain object,
    not a function. *)
Definition github_methods : list (list string) :=
  [ ["pullRequests"; "getAll"]; ["pullRequests"; "merge"];
    ["issues"; "getIssueLabels"]; ["issues"; "getComments"];
    ["issues"; "edit"]; ["issues"; "createComment"] ].

(** The callee as the source spells it. *)
Definition path_string (path : list string) : string :=
  fold_left (fun acc m => acc +:+ "." +:+ m) path "github".

(** [github.a.b(msg, function (error, result) {...})]: the request leaves
    when the member is a method; calling anything else raises a
    TypeError. *)
Definition github_call (method : list string) (msg : list (string * value)) : M unit :=
  if decide (method ∈ github_methods) then emit (Request method msg)
  else throw (TypeError (path_string method +:+ " is not a function")).

(** ** Configuration

    [config.js] is not part of the sources; the record has the fields that
    [bot.js] reads.  A credential that is not configured is [VUndefined]. *)
Record config : Type := mkConfig {
  user : string;
  repo : string;
  botUser : value;
  botPassword : value;
  oauth2key : value;
  oauth2secret : value;
  labelNeedsReview : string;
  labelReviewed : string;
  instructionsComment : string;
  reviewsNeeded : Z
}.

(** ** The functions of [bot.js] *)

(** [_authenticate] (lines 10-28). *)
Definition _authenticate (cfg : config) : M unit :=
  if (negb (truthy (botUser cfg)) || negb (truthy (botPassword cfg)))
     || (negb (truthy (oauth2key cfg)) || negb (truthy (oauth2secret cfg)))
  then throw (Error "Fatal: No username/password or no Oauth2 key/secret configured!")
  else if truthy (oauth2key cfg) && truthy (oauth2secret cfg)
  then emit (Authenticate (OAuth (oauth2key cfg) (oauth2secret cfg)))
  else emit (Authenticate (Basic (botUser cfg) (botPassword cfg))).

(** [labels = (!labels || !labels.length) ? [] : labels] (line 193).  The
    parameter is the [string[]] of the JSDoc, or absent. *)
Definition normalise_labels (labels : option loc) : M loc :=
  match labels with
  | None => new_array
  | Some l =>
      L ← read_array l;
      if Nat.eqb (length L) 0 then new_array else mret l
  end.

(** [a && e] for a boolean [a]: [e] is evaluated only when [a] holds. *)
Definition and_also (a : bool) (e : M bool) : M bool :=
  if a then e else mret false.

(** The two [if]/[else if] pairs of lines 199-214, on the local variable
    [changed]. *)
Definition adjustLabels (cfg : config) (approved : bool) (labels : loc)
    (changed : bool) : M bool :=
  changed ←
    (c ← and_also approved
           (i ← indexOf labels (labelNeedsReview cfg); mret (i >? -1));
     if (c : bool) then
       i ← indexOf labels (labelNeedsReview cfg);
       removeAt labels i;;
       mret true
     else
       c ← and_also approved
             (i ← indexOf labels (labelReviewed cfg); mret (i =? -1));
       if (c : bool) then
         push labels (labelReviewed cfg);;
         mret true
       else mret changed);
  c ← and_also (negb approved)
        (i ← indexOf labels (labelReviewed cfg); mret (i >? -1));
  if (c : bool) then
    i ← indexOf labels (labelReviewed cfg);
    removeAt labels i;;
    mret true
  else
    c ← and_also (negb approved)
          (i ← indexOf labels (labelNeedsReview cfg); mret (i =? -1));
    if (c : bool) then
      push labels (labelNeedsReview cfg);;
      mret true
    else mret changed.

(** The guard of line 195. *)
Definition insufficient (prNumber approved : value) : bool :=
  (negb (strict_eq_bool approved true) && negb (strict_eq_bool approved false))
  || negb (truthy prNumber).

(** Lines 191-214 of [updateLabels]: the run up to the test of [changed].
    The result is [None] after the [return] of line 196, and otherwise the
    array that [labels] names and the value of [changed]. *)
Definition updateLabels_delta (cfg : config) (prNumber approved : value)
    (labels : option loc) : M (option (loc * bool)) :=
  let changed := false in
  labels ← normalise_labels labels;
  if insufficient prNumber approved then
    debug "labelPullRequest: insufficient parameters";; mret None
  else
    changed ← adjustLabels cfg (truthy approved) labels changed;
    mret (Some (labels, changed)).

(** Lines 216-231: the edit request and its continuation. *)
Definition updateLabels_submit (cfg : config) (prNumber : value) (labels : loc)
    (callback : bool) (resp : response value) : M unit :=
  _authenticate cfg;;
  L ← read_array labels;
  github_call ["issues"; "edit"]
    [("user", VStr (user cfg)); ("repo", VStr (repo cfg));
     ("number", prNumber); ("labels", VStr (JSON_stringify L))];;
  match resp with
  | Failed error => debug "labelPullRequest: error while trying to label PR: "
  | Succeeded result => if callback then emit (Callback result) else skip
  end.

(** [updateLabels] (lines 185-232).  [callback] tells whether a
    continuation was passed; [resp] is the answer to the edit request. *)
Definition updateLabels (cfg : config) (prNumber approved : value)
    (labels : option loc) (callback : bool) (resp : response value) : M unit :=
  r ← updateLabels_delta cfg prNumber approved labels;
  match r with
  | None => skip
  | Some (labels, changed) =>
      if (changed : bool) then updateLabels_submit cfg prNumber labels callback resp
      else skip
  end.

(** *** The approval pattern *)

Module Regex.

(** Regular expressions, as far as line 122 needs them.  [test] asks
    whether some substring matches, so groups and the laziness of a
    quantifier make no difference. *)
Inductive regex : Type :=
| Void
| Eps
| Chr (c : ascii)
| Seq (r1 r2 : regex)
| Alt (r1 r2 : regex)
| Star (r : regex).

Definition Plus (r : regex) : regex := Seq r (Star r).

Fixpoint lit (s : string) : regex :=
  match s with
  | EmptyString => Eps
  | String c s' => Seq (Chr c) (lit s')
  end.

Fixpoint nullable (r : regex) : bool :=
  match r with
  | Void => false
  | Eps => true
  | Chr _ => false
  | Seq r1 r2 => nullable r1 && nullable r2
  | Alt r1 r2 => nullable r1 || nullable r2
  | Star _ => true
  end.

(** The derivative of [r] by the code unit [c]. *)
Fixpoint deriv (c : ascii) (r : regex) : regex :=
  match r with
  | Void => Void
  | Eps => Void
  | Chr c' => if Ascii.eqb c c' then Eps else Void
  | Seq r1 r2 =>
      if nullable r1 then Alt (Seq (deriv c r1) r2) (deriv c r2)
      else Seq (deriv c r1) r2
  | Alt r1 r2 => Alt (deriv c r1) (deriv c r2)
  | Star r1 => Seq (deriv c r1) (Star r1)
  end.

(** Some prefix of [s] matches [r]. *)
Fixpoint matches_prefix (r : regex) (s : string) : bool :=
  nullable r
  || match s with
     | EmptyString => false
     | String c s' => matches_prefix (deriv c r) s'
     end.

(** [r.test(s)] for a pattern without flags. *)
Fixpoint test (r : regex) (s : string) : bool :=
  matches_prefix r s
  || match s with
     | EmptyString => false
     | String _ s' => test r s'
     end.

End Regex.

(** [/(LGTM)|(Looks good to me!)|w+?/] (line 122). *)
Definition lgtm : Regex.regex :=
  Regex.Alt (Regex.lit "LGTM")
    (Regex.Alt (Regex.lit "Looks good to me!") (Regex.Plus (Regex.Chr "w"))).

(** A comment of the forge; [None] is a body that is [null] or missing. *)
Record comment : Type := mkComment { body : option string }.

(** [result[i].body && lgtm.test(result[i].body)] (line 131). *)
Definition approves (c : comment) : bool :=
  match body c with
  | None => false
  | Some b => truthy (VStr b) && Regex.test lgtm b
  end.

(** The loop of lines 130-134. *)
Fixpoint countApprovals (result : list comment) (approvedCount : Z) : Z :=
  match result with
  | [] => approvedCount
  | c :: result' =>
      countApprovals result'
        (if approves c then approvedCount + 1 else approvedCount)
  end.

(** [checkForApprovalComments] (lines 107-142). *)
Definition checkForApprovalComments (cfg : config) (prNumber : value)
    (callback : bool) (resp : response (list comment)) : M unit :=
  if negb (truthy prNumber) then
    debug "checkForApprovalComments: insufficient parameters"
  else
    github_call ["issues"; "getComments"]
      [("repo", VStr (repo cfg)); ("user", VStr (user cfg));
       ("number", prNumber); ("perPage", VNum 99)];;
    match resp with
    | Failed error =>
        debug "checkForApprovalComments: Error while fetching coments for single PR: "
    | Succeeded result =>
        let approvedCount := countApprovals result 0 in
        let approved := approvedCount >=? reviewsNeeded cfg in
        if callback then emit (Callback (VBool approved)) else skip
    end.

(** The comparison of line 166. *)
Definition same_instructions (cfg : config) (b : string) : bool :=
  String.eqb (trim (slice 1 30 b)) (trim (slice 1 30 (instructionsComment cfg))).

(** The loop of lines 165-170; a comment without a body has no [slice]. *)
Fixpoint scanInstructions (cfg : config) (result : list comment)
    (instructed : bool) : M bool :=
  match result with
  | [] => mret instructed
  | c :: result' =>
      match body c with
      | None => throw (TypeError "Cannot read property 'slice' of undefined")
      | Some b =>
          let instructed := same_instructions cfg b in
          if instructed then mret instructed
          else scanInstructions cfg result' instructed
      end
  end.

(** [checkForInstructionsComment] (lines 149-176). *)
Definition checkForInstructionsComment (cfg : config) (prNumber : value)
    (callback : bool) (resp : response (list comment)) : M unit :=
  github_call ["issues"; "getComments"]
    [("user", VStr (user cfg)); ("repo", VStr (repo cfg)); ("number", prNumber)];;
  match resp with
  | Failed error => debug "commentInstructions: error while trying fetch comments: "
  | Succeeded result =>
      instructed ← scanInstructions cfg result false;
      if callback then emit (Callback (VBool instructed)) else skip
  end.

(** [postInstructionsComment] (lines 239-258). *)
Definition postInstructionsComment (cfg : config) (prNumber : value)
    (callback : bool) (resp : response value) : M unit :=
  _authenticate cfg;;
  github_call ["issues"; "createComment"]
    [("user", VStr (user cfg)); ("repo", VStr (repo cfg)); ("number", prNumber);
     ("body", VStr (instructionsComment cfg))];;
  match resp with
  | Failed error => debug "postInstructionsComment: Error while trying to post instructions:"
  | Succeeded result => if callback then emit (Callback result) else skip
  end.

(** [merge] (lines 265-283): the callee of line 271 is [github.pullRequests]
    itself. *)
Definition merge (cfg : config) (prNumber : value)
    (callback : bool) (resp : response value) : M unit :=
  _authenticate cfg;;
  github_call ["pullRequests"]
    [("user", VStr (user cfg)); ("repo", VStr (repo cfg)); ("number", prNumber)];;
  match resp with
  | Failed error => debug "merge: Error while trying to merge PR:"
  | Succeeded result => if callback then emit (Callback result) else skip
  end.

(** ** Running a function *)

(** A call that starts on the heap [h] with an empty log. *)
Definition run {A} (m : M A) (h : gmap loc (list string)) : outcome A * state :=
  m (mkState h []).

Definition is_request (method : list string) (e : event) : bool :=
  match e with
  | Request method' _ => bool_decide (method' = method)
  | _ => false
  end.

Definition is_callback (e : event) : bool :=
  match e with
  | Callback _ => true
  | _ => false
  end.

(** How many requests for [method] the log holds. *)
Definition requests (method : list string) (tr : list event) : nat :=
  length (List.filter (is_request method) tr).

(** How many times the continuation was called. *)
Definition callbacks (tr : list event) : nat :=
  length (List.filter is_callback tr).

(** [_authenticate] goes through: the guard of line 11 asks for both pairs
    of credentials. *)
Definition authenticates (cfg : config) : bool :=
  truthy (botUser cfg) && truthy (botPassword cfg)
  && truthy (oauth2key cfg) && truthy (oauth2secret cfg).

(** The value of [changed] when [updateLabels] reaches line 216, and
    [false] (its initial value) when the run ends before. *)
Definition changed_flag (cfg : config) (prNumber approved : value)
    (labels : option loc) (h : gmap loc (list string)) : bool :=
  match run (updateLabels_delta cfg prNumber approved labels) h with
  | (Return (Some (_, changed)), _) => changed
  | _ => false
  end.

(** The delta computation on the label names [L] alone: the new value of
    [changed] and the names afterwards, or [None] when the run raised an
    exception. *)
Definition computeDelta (cfg : config) (approved : bool) (L : list string)
    : option (bool * list string) :=
  match run (adjustLabels cfg approved 1%positive false) {[ 1%positive := L ]} with
  | (Return changed, s) => Some (changed, default [] (heap s !! 1%positive))
  | (Throw _, _) => None
  end.

(** ** Example configurations *)

(** Both pairs of credentials, the label names of the specification and a
    threshold of two reviews. *)
Definition cfg0 : config :=
  mkConfig "octo" "studies" (VStr "bot") (VStr "pw") (VStr "key") (VStr "secret")
    "needs-review" "reviewed" "Hello, thanks for the pull request!" 2.

(** The same with the user name and password only. *)
Definition cfg_basic : config :=
  mkConfig "octo" "studies" (VStr "bot") (VStr "pw") VUndefined VUndefined
    "needs-review" "reviewed" "Hello, thanks for the pull request!" 2.

(** The same without any credentials. *)
Definition cfg_none : config :=
  mkConfig "octo" "studies" VUndefined VUndefined VUndefined VUndefined
    "needs-review" "reviewed" "Hello, thanks for the pull request!" 2.

(** The log of a call of [updateLabels]. *)
Definition updateLabels_log (cfg : config) (prNumber approved : value)
    (labels : option loc) (callback : bool) (resp : response value)
    (h : gmap loc (list string)) : list event :=
  trace (run (updateLabels cfg prNumber approved labels callback resp) h).2.

(** The edit request of line 218 for the label names [L]. *)
Definition edit_request (cfg : config) (prNumber : value) (L : list string) : event :=
  Request ["issues"; "edit"]
    [("user", VStr (user cfg)); ("repo", VStr (repo cfg));
     ("number", prNumber); ("labels", VStr (JSON_stringify L))].

(** The request of line 154. *)
Definition comments_request (cfg : config) (prNumber : value) : event :=
  Request ["issues"; "getComments"]
    [("user", VStr (user cfg)); ("repo", VStr (repo cfg)); ("number", prNumber)].

(** The request of line 116. *)
Definition approvals_request (cfg : config) (prNumber : value) : event :=
  Request ["issues"; "getComments"]
    [("repo", VStr (repo cfg)); ("user", VStr (user cfg));
     ("number", prNumber); ("perPage", VNum 99)].

(** What the continuation of a request logs on the answer [resp]. *)
Definition reaction (msg : string) (callback : bool) (resp : response value)
    : list event :=
  match resp with
  | Failed _ => [Debug msg]
  | Succeeded result => if callback then [Callback result] else []
  end.

(** Comments with the given bodies. *)
Definition comments (bodies : list string) : list comment :=
  map (fun b => mkComment (Some b)) bodies.

(** The label that [approved] calls for ... *)
Definition wanted_label (cfg : config) (approved : bool) : string :=
  if approved then labelReviewed cfg else labelNeedsReview cfg.

(** ... and the one it rules out. *)
Definition unwanted_label (cfg : config) (approved : bool) : string :=
  if approved then labelNeedsReview cfg else labelReviewed cfg.

(** [l] without the first occurrence of [x]. *)
Fixpoint remove_first (x : string) (l : list string) : list string :=
  match l with
  | [] => []
  | y :: l' => if String.eqb y x then l' else y :: remove_first x l'
  end.

(** The delta in the words of section 4.1 of the specification, to set
    against [computeDelta]: with the unwanted label present "remove it;
    mark changed", else with the wanted label absent "add it; mark
    changed". *)
Definition spec_computeDelta (cfg : config) (approved : bool) (L : list string)
    : bool * list string :=
  if bool_decide (unwanted_label cfg approved ∈ L)
  then (true, remove_first (unwanted_label cfg approved) L)
  else if bool_decide (wanted_label cfg approved ∈ L) then (false, L)
  else (true, L ++ [wanted_label cfg approved]).

(** The first 30 code units of [s], trimmed. *)
Definition prefix30 (s : string) : string := trim (slice 0 30 s).

(** A comment that has a body and does not match. *)
Definition other_comment (cfg : config) (c : comment) : Prop :=
  exists b, body c = Some b
            /\ trim (slice 1 30 b) <> trim (slice 1 30 (instructionsComment cfg)).

(** ** Readings of the specification that the code does not meet *)

(** C4 as it is worded: a call issues an edit request exactly when it set
    [changed]. *)
Definition edits_iff_changed (cfg : config) : Prop :=
  forall (prNumber approved : value) (labels : option loc) (callback : bool)
         (resp : response value) (h : gmap loc (list string)),
    (0 < requests ["issues"; "edit"]
           (updateLabels_log cfg prNumber approved labels callback resp h))%nat
    <-> changed_flag cfg prNumber approved labels h = true.

(** C3 as it is worded: every application yields a label list; a second
    application to that list changes nothing, unless the first one removed
    a label, and then the second adds the other label and the third
    changes nothing. *)
Definition delta_settles (cfg : config) : Prop :=
  forall (L : list string) (approved : bool),
    exists changed L1,
      computeDelta cfg approved L = Some (changed, L1)
      /\ (computeDelta cfg approved L1 = Some (false, L1)
          \/ ((length L1 < length L)%nat
              /\ computeDelta cfg approved L1
                 = Some (true, L1 ++ [wanted_label cfg approved])
              /\ computeDelta cfg approved (L1 ++ [wanted_label cfg approved])
                 = Some (false, L1 ++ [wanted_label cfg approved]))).

(** C5 as it is worded: the continuation gets [true] exactly when the
    trimmed first 30 code units of some comment equal those of the
    template. *)
Definition reports_equal_prefix (cfg : config) : Prop :=
  forall (prNumber : value) (result : list comment) (h : gmap loc (list string)),
    Callback (VBool true)
      ∈ trace (run (checkForInstructionsComment cfg prNumber true (Succeeded result)) h).2
    <-> exists c b,
          c ∈ result /\ body c = Some b
          /\ prefix30 b = prefix30 (instructionsComment cfg).


(** ** The remaining functions of [bot.js] *)

(** [getPullRequests] (lines 34-56).  The answer holds the array of pull
    requests, or [None] for a result that is [null] or missing; the
    continuation, when one is passed, is a function of that array. *)
Definition getPullRequests (cfg : config)
    (callback : option (list value -> M unit))
    (resp : response (option (list value))) : M unit :=
  github_call ["pullRequests"; "getAll"]
    [("user", VStr (user cfg)); ("repo", VStr (repo cfg)); ("state", VStr "all")];;
  match resp with
  | Failed error => debug "getPullRequests: Error while fetching PRs: "
  | Succeeded result =>
      match result with
      | None => debug "getPullRequests: No open PRs found"
      | Some prs =>
          if Nat.eqb (length prs) 0 || Nat.ltb (length prs) 1 then
            debug "getPullRequests: No open PRs found"
          else
            match callback with
            | Some k => k prs
            | None => skip
            end
      end
  end.

(** A label of the forge, as far as line 87 reads it. *)
Record label : Type := mkLabel { name : string }.

(** The object that [checkForLabel] hands to its continuation. *)
Record label_report : Type := mkReport {
  labeledNeedsReview : bool;
  labeledReviewed : bool;
  labels : list label
}.

(** The loop of lines 86-90 on its three variables. *)
Fixpoint scanLabels (cfg : config) (result : list label)
    (labeledNeedsReview labeledReviewed : bool) (labels : list label)
    : label_report :=
  match result with
  | [] => mkReport labeledNeedsReview labeledReviewed labels
  | r :: result' =>
      scanLabels cfg result'
        (if String.eqb (name r) (labelNeedsReview cfg) then true
         else labeledNeedsReview)
        (if String.eqb (name r) (labelReviewed cfg) then true
         else labeledReviewed)
        (labels ++ [r])
  end.

(** [checkForLabel] (lines 63-100). *)
Definition checkForLabel (cfg : config) (prNumber : value)
    (callback : option (label_report -> M unit))
    (resp : response (list label)) : M unit :=
  if negb (truthy prNumber) then
    debug "checkForLabel: insufficient parameters"
  else
    github_call ["issues"; "getIssueLabels"]
      [("user", VStr (user cfg)); ("repo", VStr (repo cfg)); ("number", prNumber)];;
    match resp with
    | Failed error =>
        debug "checkForLabel: Error while fetching labels for single PR: "
    | Succeeded result =>
        let report := scanLabels cfg result false false [] in
        match callback with
        | Some k => k report
        | None => skip
        end
    end.

(** ** Further notions for the properties *)

(** [needle] occurs in [b]. *)
Definition occurs (needle b : string) : Prop :=
  exists pre post, b = pre +:+ needle +:+ post.

(** The state [s] after the events [es]. *)
Definition logged (s : state) (es : list event) : state :=
  mkState (heap s) (trace s ++ es).

(** The requests of the two listings. *)
Definition pulls_request (cfg : config) : event :=
  Request ["pullRequests"; "getAll"]
    [("user", VStr (user cfg)); ("repo", VStr (repo cfg)); ("state", VStr "all")].

Definition labels_request (cfg : config) (prNumber : value) : event :=
  Request ["issues"; "getIssueLabels"]
    [("user", VStr (user cfg)); ("repo", VStr (repo cfg)); ("number", prNumber)].

(** The request of line 245. *)
Definition comment_request (cfg : config) (prNumber : value) : event :=
  Request ["issues"; "createComment"]
    [("user", VStr (user cfg)); ("repo", VStr (repo cfg)); ("number", prNumber);
     ("body", VStr (instructionsComment cfg))].

Definition is_authenticate (e : event) : bool :=
  match e with
  | Authenticate _ => true
  | _ => false
  end.

Definition is_any_request (e : event) : bool :=
  match e with
  | Request _ _ => true
  | _ => false
  end.

(** Every request of [tr] comes right after an authentication;
    [authenticated] tells whether the event before [tr] was one. *)
Fixpoint requests_follow (authenticated : bool) (tr : list event) : bool :=
  match tr with
  | [] => true
  | e :: tr' =>
      (negb (is_any_request e) || authenticated)
      && requests_follow (is_authenticate e) tr'
  end.

Definition authenticated_requests (tr : list event) : bool :=
  requests_follow false tr.

(** * Properties *)

(** ** Arrays and membership *)

Lemma indexOf_from_cases (x : string) (L : list string) (i : Z) :
  0 <= i ->
  (x ∈ L /\ i <= indexOf_from x L i) \/ ((x ∉ L) /\ indexOf_from x L i = -1).
Proof.
  revert i. induction L as [|y L IH]; intros i Hi; simpl.
  - right. split; [apply not_elem_of_nil | reflexivity].
  - destruct (String.eqb_spec y x) as [->|Hne].
    + left. split; [apply elem_of_cons; by left | lia].
    + destruct (IH (i + 1)) as [[Hin Hle]|[Hnin Heq]]; [lia | |].
      * left. split; [apply elem_of_cons; by right | lia].
      * right. split; [|exact Heq].
        intros Hin. apply elem_of_cons in Hin as [->|Hin]; [by apply Hne | by apply Hnin].
Qed.

Lemma indexOf_present (x : string) (L : list string) :
  (x ∈ L) -> (indexOf_from x L 0 >? -1) = true.
Proof.
  intros Hin. destruct (indexOf_from_cases x L 0) as [[_ Hle]|[Hnin _]]; [lia | | done].
  apply Z.gtb_lt. lia.
Qed.

Lemma indexOf_absent (x : string) (L : list string) :
  (x ∉ L) -> indexOf_from x L 0 = -1.
Proof.
  intros Hnin. destruct (indexOf_from_cases x L 0) as [[Hin _]|[_ Heq]]; [lia | done | done].
Qed.

Lemma indexOf_present_ne (x : string) (L : list string) :
  (x ∈ L) -> (indexOf_from x L 0 =? -1) = false.
Proof.
  intros Hin. destruct (indexOf_from_cases x L 0) as [[_ Hle]|[Hnin _]]; [lia | | done].
  apply Z.eqb_neq. lia.
Qed.

(** Closes a hypothesis [H : e ∈ [e1; ...; en]] whose event differs from
    every [ei] by its constructor. *)
Ltac not_logged H :=
  repeat (apply elem_of_cons in H as [H|H]; [discriminate H|]);
  by apply elem_of_nil in H.

(** ** Equations of the monad and of the label update *)

Lemma bind_run {A B} (m : M A) (k : A -> M B) (s : state) :
  (m ≫= k) s =
  match m s with
  | (Return a, s') => k a s'
  | (Throw e, s') => (Throw e, s')
  end.
Proof. reflexivity. Qed.

(** What lines 199-214 do to the array [l], by the branch that fires. *)
Lemma adjustLabels_run (cfg : config) (approved : bool) (l : loc) (changed : bool)
    (s : state) :
  adjustLabels cfg approved l changed s =
  let L := default [] (heap s !! l) in
  let present x := indexOf_from x L 0 >? -1 in
  let absent x := indexOf_from x L 0 =? -1 in
  let add x := (Return true, mkState (<[l := L ++ [x]]> (heap s)) (trace s)) in
  if approved then
    if present (labelNeedsReview cfg)
    then (Throw (TypeError "labels.removeAt is not a function"), s)
    else if absent (labelReviewed cfg) then add (labelReviewed cfg)
    else (Return changed, s)
  else
    if present (labelReviewed cfg)
    then (Throw (TypeError "labels.removeAt is not a function"), s)
    else if absent (labelNeedsReview cfg) then add (labelNeedsReview cfg)
    else (Return changed, s).
Proof.
  unfold adjustLabels, and_also, indexOf, read_array, push, removeAt, throw.
  unfold mbind, M_bind, mret, M_ret.
  destruct approved; simpl.
  - destruct (indexOf_from (labelNeedsReview cfg) _ 0 >? -1); [reflexivity|].
    destruct (indexOf_from (labelReviewed cfg) _ 0 =? -1); reflexivity.
  - destruct (indexOf_from (labelReviewed cfg) _ 0 >? -1); [reflexivity|].
    destruct (indexOf_from (labelNeedsReview cfg) _ 0 =? -1); reflexivity.
Qed.

(** Line 193 keeps the array of the caller when it has an element. *)
Lemma normalise_labels_keeps (l : loc) (L : list string) (s : state) :
  heap s !! l = Some L -> L <> [] ->
  normalise_labels (Some l) s = (Return l, s).
Proof.
  intros Hl HL. unfold normalise_labels, read_array. rewrite bind_run, Hl. simpl.
  destruct L as [|x L]; [done | reflexivity].
Qed.

(** Line 193 makes a new array when none, or an empty one, was passed. *)
Lemma normalise_labels_fresh (labels : option loc) (s : state) :
  labels = None \/ (exists l, labels = Some l /\ heap s !! l = Some []) ->
  normalise_labels labels s
  = (Return (fresh (dom (heap s))),
     mkState (<[fresh (dom (heap s)) := []]> (heap s)) (trace s)).
Proof.
  intros [->|(l & -> & Hl)]; [reflexivity|].
  unfold normalise_labels, read_array. by rewrite bind_run, Hl.
Qed.

Lemma insufficient_bool (prNumber : value) (approved : bool) :
  insufficient prNumber (VBool approved) = negb (truthy prNumber).
Proof. unfold insufficient. by destruct approved. Qed.

(** ** The removal branches *)

(** C1, for approved and the labels [["needs-review"]].
    The run raises the TypeError of [labels.removeAt] before anything
    leaves: no edit request, no continuation, and the array still holds
    its label. *)
Theorem updateLabels_needs_review_raises :
  run (updateLabels cfg0 (VNum 7) (VBool true) (Some 1%positive) true
         (Succeeded (VObj 0)))
      {[ 1%positive := ["needs-review"] ]}
  = (Throw (TypeError "labels.removeAt is not a function"),
     mkState {[ 1%positive := ["needs-review"] ]} []).
Proof. reflexivity. Qed.

(** C2: when a removal branch fires (approved with the needs-review label
    present, or not approved with the reviewed label present), the call
    ends in the TypeError of the missing [removeAt]; the log stays empty,
    so no edit request left and no continuation ran, and the heap is as
    it was. *)
Theorem removal_branch_raises (cfg : config) (prNumber : value) (approved : bool)
    (l : loc) (L : list string) (callback : bool) (resp : response value)
    (h : gmap loc (list string)) :
  truthy prNumber = true ->
  h !! l = Some L ->
  (approved = true /\ labelNeedsReview cfg ∈ L)
  \/ (approved = false /\ labelReviewed cfg ∈ L) ->
  run (updateLabels cfg prNumber (VBool approved) (Some l) callback resp) h
  = (Throw (TypeError "labels.removeAt is not a function"), mkState h []).
Proof.
  intros Hpr Hl Hbranch.
  assert (HL : L <> []).
  { destruct Hbranch as [[_ Hin]|[_ Hin]]; by apply elem_of_not_nil in Hin. }
  unfold run, updateLabels, updateLabels_delta.
  rewrite !bind_run, (normalise_labels_keeps l L) by done.
  rewrite insufficient_bool, Hpr. simpl.
  rewrite bind_run, adjustLabels_run. simpl. rewrite Hl. simpl.
  destruct Hbranch as [[-> Hin]|[-> Hin]];
    by rewrite (indexOf_present _ _ Hin).
Qed.

Lemma removal_branch_raises_witness :
  run (updateLabels cfg0 (VNum 7) (VBool false) (Some 1%positive) true
         (Succeeded (VObj 0)))
      {[ 1%positive := ["bug"; "reviewed"] ]}
  = (Throw (TypeError "labels.removeAt is not a function"),
     mkState {[ 1%positive := ["bug"; "reviewed"] ]} []).
Proof.
  apply (removal_branch_raises cfg0 (VNum 7) false 1%positive ["bug"; "reviewed"]).
  - reflexivity.
  - reflexivity.
  - right. split; [reflexivity | apply elem_of_cons; right; apply elem_of_cons; by left].
Defined.

(** ** Authentication *)

(** [_authenticate] by its guard: it goes through only with both pairs of
    credentials, and then with the OAuth pair; the branch of line 22 is
    never reached. *)
Lemma _authenticate_run (cfg : config) (s : state) :
  _authenticate cfg s =
  if authenticates cfg
  then (Return tt,
        mkState (heap s)
          (trace s ++ [Authenticate (OAuth (oauth2key cfg) (oauth2secret cfg))]))
  else (Throw (Error "Fatal: No username/password or no Oauth2 key/secret configured!"), s).
Proof.
  unfold _authenticate, authenticates.
  destruct (truthy (botUser cfg)), (truthy (botPassword cfg)),
    (truthy (oauth2key cfg)), (truthy (oauth2secret cfg)); reflexivity.
Qed.

(** C7, at a configuration with a user name and a password and no OAuth
    pair: [_authenticate] raises the fatal error of line 12 and nothing is
    handed to the client, although line 22 is there to log in with the
    user name and password. *)
Theorem authenticate_basic_only_raises :
  run (_authenticate cfg_basic) ∅
  = (Throw (Error "Fatal: No username/password or no Oauth2 key/secret configured!"),
     mkState ∅ []).
Proof. reflexivity. Qed.

(** With both pairs configured the OAuth pair is the one used. *)
Lemma authenticate_both_uses_oauth :
  run (_authenticate cfg0) ∅
  = (Return tt, mkState ∅ [Authenticate (OAuth (VStr "key") (VStr "secret"))]).
Proof. reflexivity. Qed.

(** No run of [_authenticate] logs in with the user name and password. *)
Lemma authenticate_never_basic (cfg : config) (h : gmap loc (list string))
    (username password : value) :
  Authenticate (Basic username password) ∉ trace (run (_authenticate cfg) h).2.
Proof.
  unfold run. rewrite _authenticate_run. destruct (authenticates cfg); simpl.
  - intros Hin. not_logged Hin.
  - apply not_elem_of_nil.
Qed.

(** ** Merging *)

(** C9, at pull request 7 with a continuation: after authenticating, line
    271 calls the name space [github.pullRequests] itself, which is no
    method of the client; the run ends there, no merge request leaves and
    the continuation is never called. *)
Theorem merge_calls_name_space :
  run (merge cfg0 (VNum 7) true (Succeeded (VObj 0))) ∅
  = (Throw (TypeError "github.pullRequests is not a function"),
     mkState ∅ [Authenticate (OAuth (VStr "key") (VStr "secret"))]).
Proof. reflexivity. Qed.

(** For every input, [merge] sends no merge request and calls no
    continuation. *)
Lemma merge_never_merges (cfg : config) (prNumber : value) (callback : bool)
    (resp : response value) (h : gmap loc (list string)) :
  let tr := trace (run (merge cfg prNumber callback resp) h).2 in
  requests ["pullRequests"; "merge"] tr = 0%nat /\ callbacks tr = 0%nat.
Proof.
  unfold run, merge. rewrite bind_run, _authenticate_run.
  destruct (authenticates cfg); simpl; split; reflexivity.
Qed.

(** ** The label update, phase by phase *)

Lemma github_call_method (method : list string) (msg : list (string * value))
    (s : state) :
  method ∈ github_methods ->
  github_call method msg s
  = (Return tt, mkState (heap s) (trace s ++ [Request method msg])).
Proof. intros Hin. unfold github_call. by rewrite decide_True. Qed.

Lemma edit_is_method : ["issues"; "edit"] ∈ github_methods.
Proof. unfold github_methods. set_solver. Qed.

Lemma updateLabels_submit_run (cfg : config) (prNumber : value) (l : loc)
    (callback : bool) (resp : response value) (s : state) :
  updateLabels_submit cfg prNumber l callback resp s =
  if authenticates cfg
  then (Return tt,
        mkState (heap s)
          (trace s
           ++ Authenticate (OAuth (oauth2key cfg) (oauth2secret cfg))
              :: edit_request cfg prNumber (default [] (heap s !! l))
              :: reaction "labelPullRequest: error while trying to label PR: "
                   callback resp))
  else (Throw (Error "Fatal: No username/password or no Oauth2 key/secret configured!"), s).
Proof.
  unfold updateLabels_submit. rewrite bind_run, _authenticate_run.
  destruct (authenticates cfg); [|reflexivity].
  rewrite bind_run. unfold read_array. cbv beta iota.
  rewrite bind_run, github_call_method by apply edit_is_method.
  unfold edit_request, reaction.
  unfold debug, emit, skip, mret, M_ret.
  destruct resp as [error|result]; [|destruct callback]; simpl;
    rewrite <- ?app_assoc; reflexivity.
Qed.

Lemma updateLabels_delta_run (cfg : config) (prNumber approved : value)
    (labels : option loc) (s : state) :
  updateLabels_delta cfg prNumber approved labels s =
  match normalise_labels labels s with
  | (Return l, s1) =>
      if insufficient prNumber approved
      then (Return None,
            mkState (heap s1)
              (trace s1 ++ [Debug "labelPullRequest: insufficient parameters"]))
      else match adjustLabels cfg (truthy approved) l false s1 with
           | (Return changed, s2) => (Return (Some (l, changed)), s2)
           | (Throw e, s2) => (Throw e, s2)
           end
  | (Throw e, s1) => (Throw e, s1)
  end.
Proof.
  unfold updateLabels_delta. rewrite bind_run.
  destruct (normalise_labels labels s) as [[l|e] s1]; [|reflexivity].
  destruct (insufficient prNumber approved); [reflexivity|].
  rewrite bind_run. by destruct (adjustLabels _ _ _ _ _) as [[c|e] s2].
Qed.

(** Line 193 logs nothing and leaves every array of the caller as it is. *)
Lemma normalise_labels_frame (labels : option loc) (s : state) :
  exists l s1,
    normalise_labels labels s = (Return l, s1)
    /\ trace s1 = trace s
    /\ (forall l0 L0, heap s !! l0 = Some L0 -> heap s1 !! l0 = Some L0).
Proof.
  assert (Hfresh : forall l0 L0, heap s !! l0 = Some L0 ->
            <[fresh (dom (heap s)) := []]> (heap s) !! l0 = Some L0).
  { intros l0 L0 Hl0. rewrite lookup_insert_ne; [done|].
    intros <-. apply (is_fresh (dom (heap s))). apply elem_of_dom. by exists L0. }
  destruct labels as [l|].
  - unfold normalise_labels, read_array. rewrite bind_run.
    destruct (Nat.eqb (length (default [] (heap s !! l))) 0).
    + eexists _, _. split; [reflexivity|]. split; [reflexivity|]. exact Hfresh.
    + eexists _, _. split; [reflexivity|]. split; [reflexivity|]. done.
  - eexists _, _. split; [reflexivity|]. split; [reflexivity|]. exact Hfresh.
Qed.

(** Lines 199-214 log nothing. *)
Lemma adjustLabels_trace (cfg : config) (approved : bool) (l : loc)
    (changed : bool) (s : state) :
  trace (adjustLabels cfg approved l changed s).2 = trace s.
Proof.
  rewrite adjustLabels_run. simpl.
  destruct approved;
    repeat match goal with |- context [if ?b then _ else _] => destruct b end;
    reflexivity.
Qed.

(** The first phase logs the diagnostic of line 196 or nothing. *)
Lemma updateLabels_delta_trace (cfg : config) (prNumber approved : value)
    (labels : option loc) (s : state) :
  trace (updateLabels_delta cfg prNumber approved labels s).2
  = trace s ++ (if insufficient prNumber approved
                then [Debug "labelPullRequest: insufficient parameters"] else []).
Proof.
  rewrite updateLabels_delta_run.
  destruct (normalise_labels_frame labels s) as (l & s1 & -> & Htr & _).
  destruct (insufficient prNumber approved); simpl; [by rewrite Htr|].
  rewrite app_nil_r, <- Htr, <- (adjustLabels_trace cfg (truthy approved) l false s1).
  by destruct (adjustLabels _ _ _ _ _) as [[c|e] s2].
Qed.

Lemma requests_app (method : list string) (tr1 tr2 : list event) :
  requests method (tr1 ++ tr2) = (requests method tr1 + requests method tr2)%nat.
Proof. unfold requests. by rewrite List.filter_app, length_app. Qed.

Lemma requests_reaction (method : list string) (msg : string) (callback : bool)
    (resp : response value) :
  requests method (reaction msg callback resp) = 0%nat.
Proof. by destruct resp as [error|result]; [|destruct callback]. Qed.

Lemma insufficient_spec (prNumber approved : value) :
  insufficient prNumber approved = true
  <-> truthy prNumber = false \/ (approved <> VBool true /\ approved <> VBool false).
Proof.
  unfold insufficient. split.
  - intros H. apply orb_true_iff in H as [H|H].
    + right. destruct approved as [| |[|]| | | |]; simpl in H; try discriminate;
        split; discriminate.
    + left. by apply negb_true_iff.
  - intros [H|[H1 H2]].
    + rewrite H. apply orb_true_r.
    + destruct approved as [| |[|]| | | |]; try reflexivity; congruence.
Qed.

(** ** The guard of [updateLabels] *)

(** C8: with a falsy PR number, or with an [approved] that is neither
    [true] nor [false], [updateLabels] logs its diagnostic and returns:
    no request, no continuation, the arrays of the caller untouched.  An
    absent or empty [labels] is no reason to stop: line 193 replaces it by
    a new empty array, and with a PR number and a boolean [approved] the
    run goes on, sets [changed] and (once authenticated) submits the one
    label it added. *)
Theorem updateLabels_guard (cfg : config) (prNumber approved : value)
    (labels : option loc) (callback : bool) (resp : response value)
    (h : gmap loc (list string)) :
  (truthy prNumber = false
   \/ (approved <> VBool true /\ approved <> VBool false) ->
   exists h',
     run (updateLabels cfg prNumber approved labels callback resp) h
     = (Return tt, mkState h' [Debug "labelPullRequest: insufficient parameters"])
     /\ forall l L, h !! l = Some L -> h' !! l = Some L)
  /\
  (labels = None \/ (exists l, labels = Some l /\ h !! l = Some []) ->
   run (normalise_labels labels) h
   = (Return (fresh (dom h)), mkState (<[fresh (dom h) := []]> h) [])
   /\ forall b, approved = VBool b -> truthy prNumber = true ->
      let x := if b then labelReviewed cfg else labelNeedsReview cfg in
      (Debug "labelPullRequest: insufficient parameters"
         ∉ trace (run (updateLabels cfg prNumber approved labels callback resp) h).2)
      /\ changed_flag cfg prNumber approved labels h = true
      /\ (authenticates cfg = true ->
          run (updateLabels cfg prNumber approved labels callback resp) h
          = (Return tt,
             mkState (<[fresh (dom h) := [x]]> h)
               (Authenticate (OAuth (oauth2key cfg) (oauth2secret cfg))
                :: edit_request cfg prNumber [x]
                :: reaction "labelPullRequest: error while trying to label PR: "
                     callback resp)))).
Proof.
  split.
  - intros Hins. apply insufficient_spec in Hins.
    unfold run, updateLabels. rewrite bind_run, updateLabels_delta_run.
    destruct (normalise_labels_frame labels (mkState h [])) as (l & s1 & -> & Htr & Hframe).
    rewrite Hins. simpl. exists (heap s1). rewrite Htr. split; [reflexivity|].
    exact Hframe.
  - intros Hlabels.
    assert (Hnorm : normalise_labels labels (mkState h [])
              = (Return (fresh (dom h)), mkState (<[fresh (dom h) := []]> h) []))
      by (by apply (normalise_labels_fresh labels (mkState h []))).
    split; [exact Hnorm|].
    intros b -> Hpr x.
    assert (Hdelta : updateLabels_delta cfg prNumber (VBool b) labels (mkState h [])
              = (Return (Some (fresh (dom h), true)),
                 mkState (<[fresh (dom h) := [x]]> h) [])).
    { rewrite updateLabels_delta_run, Hnorm, insufficient_bool, Hpr. simpl.
      rewrite adjustLabels_run. simpl. rewrite lookup_insert_eq. simpl.
      rewrite !insert_insert_eq. by destruct b. }
    assert (Hflag : changed_flag cfg prNumber (VBool b) labels h = true).
    { unfold changed_flag, run. by rewrite Hdelta. }
    assert (Hrun : updateLabels cfg prNumber (VBool b) labels callback resp (mkState h [])
              = updateLabels_submit cfg prNumber (fresh (dom h)) callback resp
                  (mkState (<[fresh (dom h) := [x]]> h) [])).
    { unfold updateLabels. by rewrite bind_run, Hdelta. }
    unfold run. rewrite Hrun, updateLabels_submit_run. simpl.
    rewrite lookup_insert_eq. simpl.
    split; [|split; [exact Hflag|]].
    + destruct (authenticates cfg); simpl; [|apply not_elem_of_nil].
      intros Hin. unfold edit_request in Hin.
      destruct resp as [error|result]; [|destruct callback]; simpl in Hin;
        not_logged Hin.
    + by intros ->.
Qed.

Lemma updateLabels_guard_witness :
  (exists h',
     run (updateLabels cfg0 (VNum 0) (VStr "true") (Some 1%positive) true
            (Succeeded (VObj 0))) {[ 1%positive := ["needs-review"] ]}
     = (Return tt, mkState h' [Debug "labelPullRequest: insufficient parameters"])
     /\ forall l L, ({[ 1%positive := ["needs-review"] ]} : gmap loc (list string)) !! l = Some L ->
                    h' !! l = Some L)
  /\ changed_flag cfg0 (VNum 7) (VBool true) None ∅ = true.
Proof.
  split.
  - apply (updateLabels_guard cfg0 (VNum 0) (VStr "true") (Some 1%positive) true
             (Succeeded (VObj 0)) {[ 1%positive := ["needs-review"] ]}).
    left. reflexivity.
  - destruct (proj2 (updateLabels_guard cfg0 (VNum 7) (VBool true) None true
                      (Succeeded (VObj 0)) ∅) (or_introl eq_refl)) as [_ Hgo].
    exact (proj1 (proj2 (Hgo true eq_refl eq_refl))).
Defined.

(** ** Edits only for a change *)

Lemma requests_debug_or_nil (method : list string) (b : bool) (msg : string) :
  requests method (if b then [Debug msg] else []) = 0%nat.
Proof. by destruct b. Qed.

(** C4 fails without credentials: the call sets [changed], and line 217
    raises the fatal error of [_authenticate] before the request. *)
Lemma no_edit_without_credentials : ~ edits_iff_changed cfg_none.
Proof.
  intros Hclaim.
  destruct (Hclaim (VNum 7) (VBool true) None true (Succeeded (VObj 0)) ∅)
    as [_ Hback].
  specialize (Hback eq_refl). vm_compute in Hback. lia.
Qed.

(** C4, amended: a call issues one edit request when it set [changed] and
    the configuration passes [_authenticate], and none otherwise; when
    [changed] was not set, nothing but the diagnostic of the guard is
    logged (no request, no continuation); and with approved and the
    reviewed label present (needs-review absent) nothing is logged at
    all. *)
Theorem edit_iff_changed_and_authenticated (cfg : config) (prNumber approved : value)
    (labels : option loc) (callback : bool) (resp : response value)
    (h : gmap loc (list string)) :
  let tr := updateLabels_log cfg prNumber approved labels callback resp h in
  requests ["issues"; "edit"] tr
  = (if changed_flag cfg prNumber approved labels h && authenticates cfg
     then 1 else 0)%nat
  /\ (changed_flag cfg prNumber approved labels h = false ->
      forall e, e ∈ tr -> e = Debug "labelPullRequest: insufficient parameters")
  /\ (forall l L,
        labels = Some l -> h !! l = Some L -> approved = VBool true ->
        truthy prNumber = true ->
        labelReviewed cfg ∈ L -> (labelNeedsReview cfg ∉ L) ->
        changed_flag cfg prNumber approved labels h = false /\ tr = []).
Proof.
  intros tr. unfold updateLabels_log in tr.
  pose proof (updateLabels_delta_trace cfg prNumber approved labels (mkState h []))
    as Htr.
  assert (Hrun : run (updateLabels cfg prNumber approved labels callback resp) h
            = match updateLabels_delta cfg prNumber approved labels (mkState h []) with
              | (Return (Some (l, true)), s) =>
                  updateLabels_submit cfg prNumber l callback resp s
              | (Return _, s) => (Return tt, s)
              | (Throw e, s) => (Throw e, s)
              end).
  { unfold run, updateLabels. rewrite bind_run.
    by destruct (updateLabels_delta _ _ _ _ _) as [[[[l [|]]|]|e] s]. }
  split; [|split].
  - subst tr. rewrite Hrun. unfold changed_flag, run.
    destruct (updateLabels_delta _ _ _ _ _) as [[[[l [|]]|]|e] s]; simpl in *;
      try (rewrite Htr; apply requests_debug_or_nil).
    rewrite updateLabels_submit_run.
    destruct (authenticates cfg); simpl; [|rewrite Htr; apply requests_debug_or_nil].
    rewrite requests_app, Htr, requests_debug_or_nil. simpl.
    pose proof (requests_reaction ["issues"; "edit"]
                  "labelPullRequest: error while trying to label PR: " callback resp)
      as Hreaction.
    unfold requests in *. simpl. by rewrite Hreaction.
  - intros Hflag e. subst tr. rewrite Hrun. unfold changed_flag, run in Hflag.
    destruct (updateLabels_delta _ _ _ _ _) as [[[[l [|]]|]|s0] s]; simpl in *;
      try discriminate; rewrite Htr;
      (destruct (insufficient prNumber approved); simpl; intros Hin;
       [apply elem_of_cons in Hin as [->|Hin]; [reflexivity|] |];
       by apply elem_of_nil in Hin).
  - intros l L -> Hl -> Hpr Hrev Hneeds.
    assert (HL : L <> []) by (by apply elem_of_not_nil in Hrev).
    assert (Hdelta : updateLabels_delta cfg prNumber (VBool true) (Some l) (mkState h [])
              = (Return (Some (l, false)), mkState h [])).
    { rewrite updateLabels_delta_run, (normalise_labels_keeps l L) by done.
      rewrite insufficient_bool, Hpr. simpl.
      rewrite adjustLabels_run. simpl. rewrite Hl. simpl.
      rewrite (indexOf_absent _ _ Hneeds), (indexOf_present_ne _ _ Hrev). reflexivity. }
    subst tr. rewrite Hrun. unfold changed_flag, run. by rewrite Hdelta.
Qed.

Lemma edit_iff_changed_and_authenticated_witness :
  changed_flag cfg0 (VNum 7) (VBool true) (Some 1%positive) {[ 1%positive := ["reviewed"] ]}
  = false
  /\ updateLabels_log cfg0 (VNum 7) (VBool true) (Some 1%positive) true
       (Succeeded (VObj 0)) {[ 1%positive := ["reviewed"] ]} = [].
Proof.
  destruct (edit_iff_changed_and_authenticated cfg0 (VNum 7) (VBool true)
              (Some 1%positive) true (Succeeded (VObj 0))
              {[ 1%positive := ["reviewed"] ]})
    as (_ & _ & Hsame).
  apply (Hsame 1%positive ["reviewed"]); try reflexivity.
  - apply elem_of_cons. by left.
  - intros Hin. not_logged Hin.
Defined.

(** ** The array of the caller *)

Lemma updateLabels_submit_heap (cfg : config) (prNumber : value) (l : loc)
    (callback : bool) (resp : response value) (s : state) :
  heap (updateLabels_submit cfg prNumber l callback resp s).2 = heap s.
Proof. rewrite updateLabels_submit_run. by destruct (authenticates cfg). Qed.




(** ** Applying the delta again *)

(** The delta computation by cases: it raises when the unwanted label is
    there, adds the wanted label when neither is there, and changes
    nothing otherwise. *)
Lemma computeDelta_cases (cfg : config) (approved : bool) (L : list string) :
  computeDelta cfg approved L =
  if indexOf_from (unwanted_label cfg approved) L 0 >? -1 then None
  else if indexOf_from (wanted_label cfg approved) L 0 =? -1
       then Some (true, L ++ [wanted_label cfg approved])
       else Some (false, L).
Proof.
  unfold computeDelta, run. rewrite adjustLabels_run. simpl.
  rewrite lookup_singleton_eq. simpl.
  destruct approved; simpl;
    repeat match goal with |- context [if ?b then _ else _] => destruct b end;
    simpl; rewrite ?lookup_insert_eq, ?lookup_singleton_eq; reflexivity.
Qed.

(** The delta computation raises exactly when a removal branch fires. *)
Lemma computeDelta_raises (cfg : config) (approved : bool) (L : list string) :
  computeDelta cfg approved L = None <-> unwanted_label cfg approved ∈ L.
Proof.
  rewrite computeDelta_cases.
  destruct (decide (unwanted_label cfg approved ∈ L)) as [Hin|Hnin].
  - by rewrite (indexOf_present _ _ Hin).
  - rewrite (indexOf_absent _ _ Hnin). simpl.
    split; [|done]. by destruct (indexOf_from _ L 0 =? -1).
Qed.

(** Where the code yields a label list, it is the one of the
    specification's algorithm. *)
Lemma computeDelta_refines_spec (cfg : config) (approved : bool) (L : list string)
    (r : bool * list string) :
  computeDelta cfg approved L = Some r -> spec_computeDelta cfg approved L = r.
Proof.
  rewrite computeDelta_cases. unfold spec_computeDelta.
  destruct (decide (unwanted_label cfg approved ∈ L)) as [Hin|Hnin].
  { by rewrite (indexOf_present _ _ Hin). }
  rewrite (indexOf_absent _ _ Hnin), (bool_decide_eq_false_2 _ Hnin). simpl.
  destruct (decide (wanted_label cfg approved ∈ L)) as [Hw|Hw].
  - rewrite (indexOf_present_ne _ _ Hw), (bool_decide_eq_true_2 _ Hw). congruence.
  - rewrite (indexOf_absent _ _ Hw), (bool_decide_eq_false_2 _ Hw). simpl. congruence.
Qed.

(** In the specification's algorithm a removal need not be followed by an
    addition: with both labels present, the first application removes
    needs-review and the second changes nothing. *)
Lemma spec_delta_both_labels :
  spec_computeDelta cfg0 true ["needs-review"; "reviewed"] = (true, ["reviewed"])
  /\ spec_computeDelta cfg0 true ["reviewed"] = (false, ["reviewed"]).
Proof. split; reflexivity. Qed.

(** C3 fails where a removal branch fires: on [["needs-review"]] with
    approved, the first application raises the TypeError of [removeAt] and
    yields no label list at all. *)
Lemma delta_raises_on_removal : ~ delta_settles cfg0.
Proof.
  intros Hclaim.
  destruct (Hclaim ["needs-review"] true) as (changed & L1 & Hfirst & _).
  vm_compute in Hfirst. discriminate Hfirst.
Qed.

(** C3, for approved and the labels [["needs-review"]]: the first
    application of the delta computation raises the TypeError of
    [labels.removeAt] and yields no label list, where the algorithm of the
    specification removes the label, then adds [reviewed], then changes
    nothing. *)
Theorem delta_removal_raises :
  run (adjustLabels cfg0 true 1%positive false) {[ 1%positive := ["needs-review"] ]}
  = (Throw (TypeError "labels.removeAt is not a function"),
     mkState {[ 1%positive := ["needs-review"] ]} [])
  /\ computeDelta cfg0 true ["needs-review"] = None
  /\ spec_computeDelta cfg0 true ["needs-review"] = (true, [])
  /\ spec_computeDelta cfg0 true [] = (true, ["reviewed"])
  /\ spec_computeDelta cfg0 true ["reviewed"] = (false, ["reviewed"]).
Proof. repeat split; reflexivity. Qed.

(** X18: with two different label names, whenever an application of the
    delta computation yields a label list (it added the wanted label or
    changed nothing), a second application with the same [approved] to
    that list changes nothing. *)
Theorem delta_idempotent_once_completed (cfg : config) (approved : bool)
    (L L1 : list string) (changed : bool) :
  labelNeedsReview cfg <> labelReviewed cfg ->
  computeDelta cfg approved L = Some (changed, L1) ->
  computeDelta cfg approved L1 = Some (false, L1)
  /\ ((changed = false /\ L1 = L)
      \/ (changed = true /\ L1 = L ++ [wanted_label cfg approved])).
Proof.
  intros Hne Hfirst.
  assert (Hne' : unwanted_label cfg approved <> wanted_label cfg approved)
    by (destruct approved; simpl; congruence).
  rewrite computeDelta_cases in Hfirst.
  destruct (decide (unwanted_label cfg approved ∈ L)) as [Hin|Hnin].
  { by rewrite (indexOf_present _ _ Hin) in Hfirst. }
  rewrite (indexOf_absent _ _ Hnin) in Hfirst. simpl in Hfirst.
  destruct (decide (wanted_label cfg approved ∈ L)) as [Hw|Hw].
  - rewrite (indexOf_present_ne _ _ Hw) in Hfirst. injection Hfirst as <- <-.
    split; [|by left].
    by rewrite computeDelta_cases, (indexOf_absent _ _ Hnin), (indexOf_present_ne _ _ Hw).
  - rewrite (indexOf_absent _ _ Hw) in Hfirst. simpl in Hfirst.
    injection Hfirst as <- <-. split; [|by right].
    assert (Hnin' : unwanted_label cfg approved ∉ L ++ [wanted_label cfg approved]).
    { intros Hin. apply elem_of_app in Hin as [Hin|Hin]; [by apply Hnin|].
      apply elem_of_cons in Hin as [Heq|Hin]; [by apply Hne'|].
      by apply elem_of_nil in Hin. }
    assert (Hw' : wanted_label cfg approved ∈ L ++ [wanted_label cfg approved]).
    { apply elem_of_app. right. apply elem_of_cons. by left. }
    by rewrite computeDelta_cases, (indexOf_absent _ _ Hnin'), (indexOf_present_ne _ _ Hw').
Qed.

Lemma delta_idempotent_once_completed_witness :
  computeDelta cfg0 true ["bug"; "reviewed"] = Some (false, ["bug"; "reviewed"])
  /\ ((true = false /\ ["bug"; "reviewed"] = ["bug"])
      \/ (true = true /\ ["bug"; "reviewed"] = ["bug"] ++ [wanted_label cfg0 true])).
Proof.
  apply (delta_idempotent_once_completed cfg0 true ["bug"] ["bug"; "reviewed"] true).
  - discriminate.
  - reflexivity.
Defined.

(** ** The instructions comment *)

Lemma same_instructions_spec (cfg : config) (b : string) :
  same_instructions cfg b = true
  <-> trim (slice 1 30 b) = trim (slice 1 30 (instructionsComment cfg)).
Proof. unfold same_instructions. apply String.eqb_eq. Qed.

Lemma scanInstructions_others (cfg : config) (before : list comment)
    (k : list comment) (instructed : bool) (s : state) :
  Forall (other_comment cfg) before ->
  scanInstructions cfg (before ++ k) instructed s
  = match before with
    | [] => scanInstructions cfg k instructed s
    | _ => scanInstructions cfg k false s
    end.
Proof.
  intros Hbefore. revert instructed.
  induction Hbefore as [|c before (b & Hb & Hne) _ IH]; intros instructed; [reflexivity|].
  simpl. rewrite Hb.
  assert (Hsame : same_instructions cfg b = false).
  { apply not_true_iff_false. by rewrite same_instructions_spec. }
  rewrite Hsame, IH. by destruct before.
Qed.

Lemma scanInstructions_found (cfg : config) (result : list comment)
    (instructed : bool) (s s' : state) :
  scanInstructions cfg result instructed s = (Return true, s') ->
  instructed = true
  \/ exists c b, c ∈ result /\ body c = Some b
                 /\ trim (slice 1 30 b) = trim (slice 1 30 (instructionsComment cfg)).
Proof.
  revert instructed. induction result as [|c result IH]; intros instructed; simpl.
  - intros [= -> _]. by left.
  - destruct (body c) as [b|] eqn:Hb; [|discriminate].
    destruct (same_instructions cfg b) eqn:Hsame.
    + intros _. right. exists c, b. split; [apply elem_of_cons; by left|].
      split; [done|]. by apply same_instructions_spec.
    + intros Hscan. destruct (IH _ Hscan) as [?|(c' & b' & Hin & Hb' & Heq)]; [done|].
      right. exists c', b'. split; [apply elem_of_cons; by right|]. done.
Qed.

Lemma comments_is_method : ["issues"; "getComments"] ∈ github_methods.
Proof. unfold github_methods. set_solver. Qed.

Lemma checkForInstructionsComment_run (cfg : config) (prNumber : value)
    (callback : bool) (resp : response (list comment)) (h : gmap loc (list string)) :
  run (checkForInstructionsComment cfg prNumber callback resp) h
  = match resp with
    | Failed _ =>
        (Return tt,
         mkState h [comments_request cfg prNumber;
                    Debug "commentInstructions: error while trying fetch comments: "])
    | Succeeded result =>
        match scanInstructions cfg result false (mkState h [comments_request cfg prNumber]) with
        | (Return instructed, s) =>
            if callback
            then (Return tt, mkState (heap s) (trace s ++ [Callback (VBool instructed)]))
            else (Return tt, s)
        | (Throw e, s) => (Throw e, s)
        end
    end.
Proof.
  unfold run, checkForInstructionsComment.
  rewrite bind_run, github_call_method by apply comments_is_method.
  destruct resp as [error|result]; [reflexivity|].
  rewrite bind_run. simpl.
  destruct (scanInstructions _ _ _ _) as [[instructed|e] s]; [|reflexivity].
  by destruct callback.
Qed.

(** The scan touches neither the heap nor the log. *)
Lemma scanInstructions_state (cfg : config) (result : list comment)
    (instructed : bool) (s : state) :
  (scanInstructions cfg result instructed s).2 = s.
Proof.
  revert instructed. induction result as [|c result IH]; intros instructed; simpl;
    [reflexivity|].
  destruct (body c) as [b|]; [|reflexivity].
  destruct (same_instructions cfg b); [reflexivity | apply IH].
Qed.

(** C5 fails on the first code unit: [slice(1, 30)] starts at the second
    one, so a comment that differs from the template in its first code
    unit only is reported as the instructions comment. *)
Lemma first_code_unit_ignored : ~ reports_equal_prefix cfg0.
Proof.
  intros Hclaim.
  destruct (Hclaim (VNum 7) [mkComment (Some "Jello, thanks for the pull request!")] ∅)
    as [Hfwd _].
  destruct Hfwd as (c & b & Hin & Hb & Heq).
  - vm_compute. apply elem_of_cons. right. apply elem_of_cons. by left.
  - apply elem_of_cons in Hin as [->|Hin]; [|by apply elem_of_nil in Hin].
    simpl in Hb. injection Hb as <-. vm_compute in Heq. discriminate Heq.
Qed.

(** C5, amended: the comparison is on [slice(1, 30)], the code units 2 to
    30, trimmed.  When the fetch fails the call logs the diagnostic and
    calls no continuation.  When it succeeds, the comments are scanned in
    order up to the first one that matches or has no body: at a match the
    continuation gets [true], whatever comes after it; at a comment
    without a body the call raises a TypeError and the continuation is not
    called; when every comment has a body and none matches the
    continuation gets [false].  The continuation gets [true] only if some
    comment matches. *)
Theorem checkForInstructionsComment_scan (cfg : config) (prNumber : value)
    (h : gmap loc (list string)) :
  (forall error callback,
     run (checkForInstructionsComment cfg prNumber callback (Failed error)) h
     = (Return tt,
        mkState h [comments_request cfg prNumber;
                   Debug "commentInstructions: error while trying fetch comments: "]))
  /\ (forall before c b after,
        Forall (other_comment cfg) before ->
        body c = Some b ->
        trim (slice 1 30 b) = trim (slice 1 30 (instructionsComment cfg)) ->
        run (checkForInstructionsComment cfg prNumber true
               (Succeeded (before ++ c :: after))) h
        = (Return tt,
           mkState h [comments_request cfg prNumber; Callback (VBool true)]))
  /\ (forall result,
        Forall (other_comment cfg) result ->
        run (checkForInstructionsComment cfg prNumber true (Succeeded result)) h
        = (Return tt,
           mkState h [comments_request cfg prNumber; Callback (VBool false)]))
  /\ (forall result,
        Callback (VBool true)
          ∈ trace (run (checkForInstructionsComment cfg prNumber true
                          (Succeeded result)) h).2 ->
        exists c b,
          c ∈ result /\ body c = Some b
          /\ trim (slice 1 30 b) = trim (slice 1 30 (instructionsComment cfg)))
  /\ (forall before c after callback,
        Forall (other_comment cfg) before ->
        body c = None ->
        run (checkForInstructionsComment cfg prNumber callback
               (Succeeded (before ++ c :: after))) h
        = (Throw (TypeError "Cannot read property 'slice' of undefined"),
           mkState h [comments_request cfg prNumber]))
  /\ (forall result,
        Forall (other_comment cfg) result
        \/ exists before c after,
             result = before ++ c :: after
             /\ Forall (other_comment cfg) before
             /\ (body c = None
                 \/ exists b,
                      body c = Some b
                      /\ trim (slice 1 30 b)
                         = trim (slice 1 30 (instructionsComment cfg)))).
Proof.
  split; [|split; [|split; [|split; [|split]]]].
  - intros error callback. by rewrite checkForInstructionsComment_run.
  - intros before c b after Hbefore Hb Heq.
    apply same_instructions_spec in Heq.
    rewrite checkForInstructionsComment_run, scanInstructions_others by done.
    assert (Hhit : forall i s, scanInstructions cfg (c :: after) i s = (Return true, s)).
    { intros i s. simpl. by rewrite Hb, Heq. }
    destruct before; by rewrite Hhit.
  - intros result Hresult.
    rewrite checkForInstructionsComment_run.
    rewrite <- (app_nil_r result), scanInstructions_others by done.
    by destruct result.
  - intros result. rewrite checkForInstructionsComment_run.
    pose proof (scanInstructions_state cfg result false
                  (mkState h [comments_request cfg prNumber])) as Hstate.
    destruct (scanInstructions _ _ _ _) as [[[|]|e] s] eqn:Hscan; simpl in *; subst s.
    + intros _. destruct (scanInstructions_found _ _ _ _ _ Hscan) as [?|?]; done.
    + simpl. intros Hin. unfold comments_request in Hin. not_logged Hin.
    + simpl. intros Hin. unfold comments_request in Hin. not_logged Hin.
  - intros before c after callback Hbefore Hc.
    rewrite checkForInstructionsComment_run, scanInstructions_others by done.
    assert (Hraise : forall i s,
              scanInstructions cfg (c :: after) i s
              = (Throw (TypeError "Cannot read property 'slice' of undefined"), s)).
    { intros i s. simpl. by rewrite Hc. }
    destruct before; by rewrite Hraise.
  - induction result as [|c result IH]; [left; constructor|].
    destruct (body c) as [b|] eqn:Hb.
    + destruct (decide (trim (slice 1 30 b)
                        = trim (slice 1 30 (instructionsComment cfg)))) as [Heq|Hne].
      * right. exists [], c, result. split; [reflexivity|]. split; [constructor|].
        right. by exists b.
      * assert (Hc : other_comment cfg c) by (by exists b).
        destruct IH as [Hall|(before & c' & after & -> & Hbefore & Hc')].
        -- left. by constructor.
        -- right. exists (c :: before), c', after.
           split; [reflexivity|]. split; [by constructor | exact Hc'].
    + right. exists [], c, result. split; [reflexivity|]. split; [constructor|].
      by left.
Qed.

Lemma checkForInstructionsComment_scan_witness :
  run (checkForInstructionsComment cfg0 (VNum 7) true
         (Succeeded ([mkComment (Some "LGTM")]
                     ++ mkComment (Some "Jello, thanks for the pull request, all!")
                     :: [mkComment None]))) ∅
  = (Return tt, mkState ∅ [comments_request cfg0 (VNum 7); Callback (VBool true)]).
Proof.
  refine (proj1 (proj2 (checkForInstructionsComment_scan cfg0 (VNum 7) ∅))
            [mkComment (Some "LGTM")]
            (mkComment (Some "Jello, thanks for the pull request, all!"))
            "Jello, thanks for the pull request, all!"
            [mkComment None] _ eq_refl _).
  - constructor; [|constructor]. exists "LGTM". split; [reflexivity|].
    vm_compute. discriminate.
  - vm_compute. reflexivity.
Defined.

(** ** Approval comments *)

(** The third alternative of the pattern matches any body with a [w]. *)
Example lgtm_matches :
  Regex.test lgtm "LGTM" = true
  /\ Regex.test lgtm "ok. Looks good to me! thanks" = true
  /\ Regex.test lgtm "now what" = true
  /\ Regex.test lgtm "not helpful" = false
  /\ Regex.test lgtm "lgtm" = false.
Proof. repeat split; reflexivity. Qed.


Lemma countApprovals_count (result : list comment) (approvedCount : Z) :
  countApprovals result approvedCount
  = approvedCount + Z.of_nat (length (List.filter approves result)).
Proof.
  revert approvedCount. induction result as [|c result IH]; intros n; simpl; [lia|].
  rewrite IH. destruct (approves c); simpl; lia.
Qed.

(** * Further properties *)

(** ** What the approval pattern accepts *)

Lemma matches_prefix_nil (r : Regex.regex) :
  Regex.matches_prefix r EmptyString = Regex.nullable r.
Proof. simpl. apply orb_false_r. Qed.

Lemma matches_prefix_void_seq (r : Regex.regex) (s : string) :
  Regex.matches_prefix (Regex.Seq Regex.Void r) s = false.
Proof. induction s as [|c s IH]; simpl; [reflexivity | exact IH]. Qed.

Lemma matches_prefix_alt (r1 r2 : Regex.regex) (s : string) :
  Regex.matches_prefix (Regex.Alt r1 r2) s
  = Regex.matches_prefix r1 s || Regex.matches_prefix r2 s.
Proof.
  revert r1 r2. induction s as [|c s IH]; intros r1 r2; simpl.
  - by destruct (Regex.nullable r1), (Regex.nullable r2).
  - rewrite IH.
    by destruct (Regex.nullable r1), (Regex.nullable r2),
      (Regex.matches_prefix (Regex.deriv c r1) s).
Qed.

Lemma matches_prefix_eps_seq (r : Regex.regex) (s : string) :
  Regex.matches_prefix (Regex.Seq Regex.Eps r) s = Regex.matches_prefix r s.
Proof.
  destruct s as [|c s]; simpl; [reflexivity|].
  by rewrite matches_prefix_alt, matches_prefix_void_seq.
Qed.

Lemma matches_prefix_chr_seq (a c : ascii) (r : Regex.regex) (s : string) :
  Regex.matches_prefix (Regex.Seq (Regex.Chr a) r) (String c s)
  = Ascii.eqb c a && Regex.matches_prefix r s.
Proof.
  simpl. destruct (Ascii.eqb c a).
  - apply matches_prefix_eps_seq.
  - apply matches_prefix_void_seq.
Qed.

(** A literal matches a prefix of [s] exactly when [s] starts with it. *)
Lemma matches_prefix_lit (p s : string) :
  Regex.matches_prefix (Regex.lit p) s = true <-> exists post, s = p +:+ post.
Proof.
  revert s. induction p as [|a p IH]; intros s.
  - split; [intros _; by exists s | intros _; by destruct s].
  - destruct s as [|c s].
    + split; [discriminate | intros [post Hpost]; discriminate].
    + change (Regex.lit (String a p)) with (Regex.Seq (Regex.Chr a) (Regex.lit p)).
      rewrite matches_prefix_chr_seq, andb_true_iff, Ascii.eqb_eq, IH. split.
      * intros [-> [post ->]]. by exists post.
      * intros [post Hpost]. simpl in Hpost. injection Hpost as -> ->.
        split; [reflexivity | by exists post].
Qed.

(** [a+] matches a prefix of [s] exactly when [s] starts with [a]. *)
Lemma matches_prefix_plus_chr (a : ascii) (s : string) :
  Regex.matches_prefix (Regex.Plus (Regex.Chr a)) s = true
  <-> exists post, s = String a post.
Proof.
  unfold Regex.Plus. destruct s as [|c s].
  - split; [discriminate | intros [post Hpost]; discriminate].
  - rewrite matches_prefix_chr_seq, andb_true_iff, Ascii.eqb_eq. split.
    + intros [-> _]. by exists s.
    + intros [post [= -> ->]]. split; [reflexivity|]. by destruct post.
Qed.

(** [test] looks for a match at every position. *)
Lemma test_somewhere (r : Regex.regex) (s : string) :
  Regex.test r s = true
  <-> exists pre post, s = pre +:+ post /\ Regex.matches_prefix r post = true.
Proof.
  induction s as [|c s IH].
  - change (Regex.test r EmptyString)
      with (Regex.matches_prefix r EmptyString || false).
    rewrite orb_false_r. split.
    + intros Hm. by exists EmptyString, EmptyString.
    + intros (pre & post & Heq & Hm). by destruct pre, post.
  - change (Regex.test r (String c s))
      with (Regex.matches_prefix r (String c s) || Regex.test r s).
    rewrite orb_true_iff, IH. split.
    + intros [Hm|(pre & post & -> & Hm)].
      * by exists EmptyString, (String c s).
      * by exists (String c pre), post.
    + intros (pre & post & Heq & Hm). destruct pre as [|c' pre]; simpl in Heq.
      * left. by rewrite Heq.
      * injection Heq as -> ->. right. by exists pre, post.
Qed.

Lemma test_lit_occurs (p s : string) :
  Regex.test (Regex.lit p) s = true <-> occurs p s.
Proof.
  rewrite test_somewhere. unfold occurs. split.
  - intros (pre & post & -> & Hm). apply matches_prefix_lit in Hm as [post' ->].
    by exists pre, post'.
  - intros (pre & post & ->). exists pre, (p +:+ post). split; [reflexivity|].
    apply matches_prefix_lit. by exists post.
Qed.

Lemma test_alt (r1 r2 : Regex.regex) (s : string) :
  Regex.test (Regex.Alt r1 r2) s = Regex.test r1 s || Regex.test r2 s.
Proof.
  induction s as [|c s IH].
  - simpl. by destruct (Regex.nullable r1), (Regex.nullable r2).
  - change (Regex.test ?r (String c s))
      with (Regex.matches_prefix r (String c s) || Regex.test r s).
    rewrite IH, matches_prefix_alt.
    by destruct (Regex.matches_prefix r1 (String c s)),
      (Regex.matches_prefix r2 (String c s)), (Regex.test r1 s).
Qed.

(** The pattern of line 122 accepts a body exactly when the body contains
    [LGTM], or [Looks good to me!], or the letter [w]. *)
Lemma lgtm_accepts (b : string) :
  Regex.test lgtm b = true
  <-> occurs "LGTM" b \/ occurs "Looks good to me!" b \/ occurs "w" b.
Proof.
  unfold lgtm. rewrite !test_alt, !orb_true_iff, !test_lit_occurs.
  assert (Hw : Regex.test (Regex.Plus (Regex.Chr "w")) b = true <-> occurs "w" b).
  { rewrite test_somewhere. unfold occurs. split.
    - intros (pre & post & -> & Hm). apply matches_prefix_plus_chr in Hm as [post' ->].
      by exists pre, post'.
    - intros (pre & post & ->). exists pre, ("w" +:+ post). split; [reflexivity|].
      apply matches_prefix_plus_chr. by exists post. }
  by rewrite Hw.
Qed.

(** C6: for a PR number and fetched comments, the continuation gets
    whether the number of approving comments reaches [reviewsNeeded]; a
    comment approves exactly when it has a body that holds one of the
    alternatives of the pattern ([LGTM], [Looks good to me!], a [w]), so
    a missing, an empty or a non-matching body does not count.  With
    [reviewsNeeded = 2], the bodies LGTM, not helpful, Looks good to me!
    give [true], with only the first and the third counted, and the body
    LGTM alone gives [false]. *)
Theorem checkForApprovalComments_threshold (cfg : config) (prNumber : value)
    (result : list comment) (h : gmap loc (list string)) :
  truthy prNumber = true ->
  run (checkForApprovalComments cfg prNumber true (Succeeded result)) h
  = (Return tt,
     mkState h
       [approvals_request cfg prNumber;
        Callback (VBool (Z.of_nat (length (List.filter approves result))
                         >=? reviewsNeeded cfg))])
  /\ (forall c,
        approves c = true
        <-> exists b, body c = Some b /\ b <> EmptyString
                      /\ (occurs "LGTM" b \/ occurs "Looks good to me!" b
                          \/ occurs "w" b))
  /\ List.filter approves (comments ["LGTM"; "not helpful"; "Looks good to me!"])
     = comments ["LGTM"; "Looks good to me!"]
  /\ (reviewsNeeded cfg = 2 ->
      run (checkForApprovalComments cfg prNumber true
             (Succeeded (comments ["LGTM"; "not helpful"; "Looks good to me!"]))) h
      = (Return tt,
         mkState h [approvals_request cfg prNumber; Callback (VBool true)])
      /\ run (checkForApprovalComments cfg prNumber true
                (Succeeded (comments ["LGTM"]))) h
         = (Return tt,
            mkState h [approvals_request cfg prNumber; Callback (VBool false)])).
Proof.
  intros Hpr.
  assert (Hrun : forall result',
            run (checkForApprovalComments cfg prNumber true (Succeeded result')) h
            = (Return tt,
               mkState h
                 [approvals_request cfg prNumber;
                  Callback (VBool (Z.of_nat (length (List.filter approves result'))
                                   >=? reviewsNeeded cfg))])).
  { intros result'. unfold run, checkForApprovalComments. rewrite Hpr. simpl.
    rewrite bind_run, github_call_method by apply comments_is_method.
    by rewrite countApprovals_count. }
  split; [apply Hrun|]. split; [|split].
  - intros c. unfold approves. destruct (body c) as [b|].
    + rewrite andb_true_iff, lgtm_accepts. split.
      * intros [Hb Hocc]. exists b. split; [reflexivity|].
        split; [by destruct b | exact Hocc].
      * intros (b' & [= <-] & Hb & Hocc). split; [by destruct b | exact Hocc].
    + split; [discriminate | intros (b & Hb & _); discriminate].
  - reflexivity.
  - intros Hneeded. rewrite !Hrun, Hneeded. split; reflexivity.
Qed.

Lemma checkForApprovalComments_threshold_witness :
  run (checkForApprovalComments cfg0 (VNum 7) true
         (Succeeded (comments ["LGTM"; "not helpful"; "Looks good to me!"]))) ∅
  = (Return tt, mkState ∅ [approvals_request cfg0 (VNum 7); Callback (VBool true)])
  /\ run (checkForApprovalComments cfg0 (VNum 7) true (Succeeded (comments ["LGTM"]))) ∅
     = (Return tt, mkState ∅ [approvals_request cfg0 (VNum 7); Callback (VBool false)]).
Proof.
  exact (proj2 (proj2 (proj2
           (checkForApprovalComments_threshold cfg0 (VNum 7) [] ∅ eq_refl))) eq_refl).
Defined.

(** X1: a comment counts as an approval (line 131) exactly when it has a
    body that contains [LGTM], or [Looks good to me!], or the letter [w]:
    the third alternative [w+?] of the pattern makes every text with a
    [w] an approval, and a missing or empty body never counts. *)
Theorem approves_iff_occurs (c : comment) :
  approves c = true
  <-> exists b, body c = Some b
                /\ (occurs "LGTM" b \/ occurs "Looks good to me!" b \/ occurs "w" b).
Proof.
  unfold approves. destruct (body c) as [b|].
  - rewrite andb_true_iff, lgtm_accepts. split.
    + intros [_ Hocc]. by exists b.
    + intros (b' & [= <-] & Hocc). split; [|exact Hocc].
      destruct b as [|a b]; [|reflexivity].
      destruct Hocc as [Hocc|[Hocc|Hocc]]; destruct Hocc as (pre & post & Heq);
        by destruct pre.
  - split; [discriminate | intros (b & Hb & _); discriminate].
Qed.

(** ** The approval count *)

Lemma checkForApprovalComments_run (cfg : config) (prNumber : value)
    (callback : bool) (resp : response (list comment)) (h : gmap loc (list string)) :
  run (checkForApprovalComments cfg prNumber callback resp) h =
  if truthy prNumber then
    match resp with
    | Failed _ =>
        (Return tt,
         mkState h
           [approvals_request cfg prNumber;
            Debug "checkForApprovalComments: Error while fetching coments for single PR: "])
    | Succeeded result =>
        (Return tt,
         mkState h
           (approvals_request cfg prNumber
            :: if callback
               then [Callback (VBool (Z.of_nat (length (List.filter approves result))
                                      >=? reviewsNeeded cfg))]
               else []))
    end
  else (Return tt, mkState h [Debug "checkForApprovalComments: insufficient parameters"]).
Proof.
  unfold run, checkForApprovalComments. destruct (truthy prNumber); [|reflexivity].
  simpl. rewrite bind_run, github_call_method by apply comments_is_method.
  destruct resp as [error|result]; [reflexivity|].
  rewrite countApprovals_count. by destruct callback.
Qed.

Lemma approvals_submseteq (result result' : list comment) :
  result ⊆+ result' ->
  (length (List.filter approves result) <= length (List.filter approves result'))%nat.
Proof.
  induction 1 as [|c l1 l2 _ IH|c1 c2 l|c l1 l2 _ IH|l1 l2 l3 _ IH1 _ IH2]; simpl.
  - lia.
  - destruct (approves c); simpl; lia.
  - destruct (approves c1), (approves c2); simpl; lia.
  - destruct (approves c); simpl; lia.
  - lia.
Qed.

(** X2: more comments never take an approval back.  If the fetched
    comments make the continuation get [true], so does every answer that
    holds those comments and others, in any order. *)
Theorem approval_monotone (cfg : config) (prNumber : value)
    (result result' : list comment) (h : gmap loc (list string)) :
  result ⊆+ result' ->
  run (checkForApprovalComments cfg prNumber true (Succeeded result)) h
  = (Return tt, mkState h [approvals_request cfg prNumber; Callback (VBool true)]) ->
  run (checkForApprovalComments cfg prNumber true (Succeeded result')) h
  = (Return tt, mkState h [approvals_request cfg prNumber; Callback (VBool true)]).
Proof.
  intros Hsub. rewrite !checkForApprovalComments_run.
  destruct (truthy prNumber); [|discriminate].
  intros [= Happroved]. apply approvals_submseteq in Hsub.
  replace (Z.of_nat (length (List.filter approves result')) >=? reviewsNeeded cfg)
    with true; [reflexivity|].
  symmetry. apply Z.geb_le. apply Z.geb_le in Happroved. lia.
Qed.

Lemma approval_monotone_witness :
  run (checkForApprovalComments cfg0 (VNum 7) true
         (Succeeded (comments ["nope"; "LGTM"; "Looks good to me!"]))) ∅
  = (Return tt, mkState ∅ [approvals_request cfg0 (VNum 7); Callback (VBool true)]).
Proof.
  apply (approval_monotone cfg0 (VNum 7) (comments ["Looks good to me!"; "LGTM"])).
  - unfold comments. simpl.
    apply submseteq_cons. apply Permutation_submseteq. apply perm_swap.
  - reflexivity.
Defined.

(** X3: the verdict does not depend on the order of the comments. *)
Theorem approval_order_irrelevant (cfg : config) (prNumber : value)
    (callback : bool) (result result' : list comment) (h : gmap loc (list string)) :
  result ≡ₚ result' ->
  run (checkForApprovalComments cfg prNumber callback (Succeeded result)) h
  = run (checkForApprovalComments cfg prNumber callback (Succeeded result')) h.
Proof.
  intros Hperm. rewrite !checkForApprovalComments_run.
  assert (Hcount : length (List.filter approves result)
                   = length (List.filter approves result')).
  { apply Nat.le_antisymm; apply approvals_submseteq;
      apply Permutation_submseteq; [done | by symmetry]. }
  by rewrite Hcount.
Qed.

Lemma approval_order_irrelevant_witness :
  run (checkForApprovalComments cfg0 (VNum 7) true
         (Succeeded (comments ["LGTM"; "nope"]))) ∅
  = run (checkForApprovalComments cfg0 (VNum 7) true
           (Succeeded (comments ["nope"; "LGTM"]))) ∅.
Proof.
  apply approval_order_irrelevant. unfold comments. simpl. apply perm_swap.
Defined.

(** X4: an approval needs at least [reviewsNeeded] fetched comments, and
    with a threshold of zero or less every pull request is approved, even
    without any comment. *)
Theorem approval_threshold_bounds (cfg : config) (prNumber : value)
    (result : list comment) (h : gmap loc (list string)) :
  (Callback (VBool true)
     ∈ trace (run (checkForApprovalComments cfg prNumber true (Succeeded result)) h).2 ->
   reviewsNeeded cfg <= Z.of_nat (length result))
  /\ (truthy prNumber = true -> reviewsNeeded cfg <= 0 ->
      run (checkForApprovalComments cfg prNumber true (Succeeded result)) h
      = (Return tt, mkState h [approvals_request cfg prNumber; Callback (VBool true)])).
Proof.
  rewrite checkForApprovalComments_run. split.
  - destruct (truthy prNumber); simpl; [|intros Hin; not_logged Hin].
    intros Hin. unfold approvals_request in Hin.
    apply elem_of_cons in Hin as [Hin|Hin]; [discriminate Hin|].
    apply elem_of_cons in Hin as [Hin|Hin]; [|by apply elem_of_nil in Hin].
    injection Hin as Hin. symmetry in Hin. apply Z.geb_le in Hin.
    pose proof (List.filter_length_le approves result). lia.
  - intros -> Hzero.
    replace (Z.of_nat (length (List.filter approves result)) >=? reviewsNeeded cfg)
      with true; [reflexivity|].
    symmetry. apply Z.geb_le. lia.
Qed.

Lemma approval_threshold_bounds_witness :
  2 <= Z.of_nat (length (comments ["LGTM"; "wow"])).
Proof.
  refine (proj1 (approval_threshold_bounds cfg0 (VNum 7) (comments ["LGTM"; "wow"]) ∅) _).
  vm_compute. apply elem_of_cons. right. apply elem_of_cons. by left.
Defined.

(** X5: [checkForApprovalComments] never raises, never authenticates and
    leaves the heap alone; it sends its one request exactly when it got a
    PR number, and calls the continuation exactly when, besides, the fetch
    succeeded and a continuation was passed: a missing number and a failed
    fetch both end without any call of the continuation. *)
Theorem checkForApprovalComments_continuation (cfg : config) (prNumber : value)
    (callback : bool) (resp : response (list comment)) (h : gmap loc (list string)) :
  let r := run (checkForApprovalComments cfg prNumber callback resp) h in
  r.1 = Return tt
  /\ heap r.2 = h
  /\ requests ["issues"; "getComments"] (trace r.2)
     = (if truthy prNumber then 1 else 0)%nat
  /\ callbacks (trace r.2)
     = (if truthy prNumber && callback
           && match resp with Succeeded _ => true | Failed _ => false end
        then 1 else 0)%nat
  /\ forall c, Authenticate c ∉ trace r.2.
Proof.
  intros r. subst r. rewrite checkForApprovalComments_run.
  destruct (truthy prNumber), resp as [error|result], callback; simpl;
    repeat split; try reflexivity; intros c Hin; unfold approvals_request in Hin;
    not_logged Hin.
Qed.

(** ** Labels of a pull request *)

Lemma scanLabels_spec (cfg : config) (result : list label)
    (needs reviewed : bool) (acc : list label) :
  scanLabels cfg result needs reviewed acc
  = mkReport (needs || bool_decide (labelNeedsReview cfg ∈ map name result))
             (reviewed || bool_decide (labelReviewed cfg ∈ map name result))
             (acc ++ result).
Proof.
  revert needs reviewed acc.
  induction result as [|r result IH]; intros needs reviewed acc; simpl.
  - by rewrite !orb_false_r, app_nil_r.
  - rewrite IH, <- app_assoc. simpl.
    assert (Hmem : forall x,
              bool_decide (x ∈ name r :: map name result)
              = String.eqb (name r) x || bool_decide (x ∈ map name result)).
    { intros x. destruct (String.eqb_spec (name r) x) as [->|Hne]; simpl.
      - apply bool_decide_eq_true_2, elem_of_cons. by left.
      - apply bool_decide_ext. rewrite elem_of_cons.
        split; [intros [Heq|Hin]; [congruence | done] | intros Hin; by right]. }
    rewrite !Hmem.
    by destruct (String.eqb (name r) (labelNeedsReview cfg)),
      (String.eqb (name r) (labelReviewed cfg)), needs, reviewed.
Qed.

Lemma labels_is_method : ["issues"; "getIssueLabels"] ∈ github_methods.
Proof. unfold github_methods. set_solver. Qed.

(** X6: for a PR number and fetched labels, [checkForLabel] hands its
    continuation, after the one request, a report whose two flags tell
    whether a label with the configured needs-review name, and one with
    the reviewed name, is among the fetched labels (so their order and
    repetitions do not matter, and both flags can be set), together with
    the fetched labels themselves in their order.  Without a PR number
    nothing is requested, and then, as after a failed fetch, a diagnostic
    is all: the continuation is not called. *)
Theorem checkForLabel_report (cfg : config) (prNumber : value)
    (k : label_report -> M unit) (s : state) :
  (truthy prNumber = false ->
   forall resp,
     checkForLabel cfg prNumber (Some k) resp s
     = (Return tt, logged s [Debug "checkForLabel: insufficient parameters"]))
  /\ (truthy prNumber = true ->
      (forall error,
         checkForLabel cfg prNumber (Some k) (Failed error) s
         = (Return tt,
            logged s [labels_request cfg prNumber;
                      Debug "checkForLabel: Error while fetching labels for single PR: "]))
      /\ (forall result,
            checkForLabel cfg prNumber (Some k) (Succeeded result) s
            = k (mkReport
                   (bool_decide (labelNeedsReview cfg ∈ map name result))
                   (bool_decide (labelReviewed cfg ∈ map name result))
                   result)
                (logged s [labels_request cfg prNumber]))).
Proof.
  unfold checkForLabel. split.
  - intros -> resp. reflexivity.
  - intros ->. simpl. split.
    + intros error.
      rewrite bind_run, github_call_method by apply labels_is_method.
      unfold debug, emit, logged, labels_request. simpl. by rewrite <- app_assoc.
    + intros result.
      rewrite bind_run, github_call_method by apply labels_is_method.
      by rewrite scanLabels_spec.
Qed.

Lemma checkForLabel_report_witness :
  checkForLabel cfg0 (VNum 7)
    (Some (fun r => emit (Callback (VBool (labeledNeedsReview r && labeledReviewed r)))))
    (Succeeded [mkLabel "reviewed"; mkLabel "bug"; mkLabel "needs-review";
                mkLabel "reviewed"])
    (mkState ∅ [])
  = (Return tt, mkState ∅ [labels_request cfg0 (VNum 7); Callback (VBool true)]).
Proof.
  rewrite (proj2 (proj2 (checkForLabel_report cfg0 (VNum 7) _ (mkState ∅ [])) eq_refl)).
  reflexivity.
Defined.

(** ** Listing the pull requests *)

Lemma pulls_is_method : ["pullRequests"; "getAll"] ∈ github_methods.
Proof. unfold github_methods. set_solver. Qed.

(** X7: [getPullRequests] asks for the pull requests in every state
    ([state: 'all']), without authenticating, and calls its continuation
    only with a list that is not empty: after a failed fetch, with a
    missing result and with an empty list it logs one diagnostic and the
    continuation is not called, so the caller cannot tell these apart. *)
Theorem getPullRequests_cases (cfg : config) (k : list value -> M unit)
    (resp : response (option (list value))) (s : state) :
  (exists pr prs,
     resp = Succeeded (Some (pr :: prs))
     /\ getPullRequests cfg (Some k) resp s
        = k (pr :: prs) (logged s [pulls_request cfg]))
  \/ (exists msg,
        (resp = Succeeded None \/ resp = Succeeded (Some [])
         \/ exists error, resp = Failed error)
        /\ getPullRequests cfg (Some k) resp s
           = (Return tt, logged s [pulls_request cfg; Debug msg])).
Proof.
  unfold getPullRequests.
  rewrite bind_run, github_call_method by apply pulls_is_method.
  destruct resp as [error|[[|pr prs]|]].
  - right. eexists. split; [right; right; by exists error|].
    unfold debug, emit, logged, pulls_request. simpl. by rewrite <- app_assoc.
  - right. eexists. split; [right; by left|].
    unfold debug, emit, logged, pulls_request. simpl. by rewrite <- app_assoc.
  - left. exists pr, prs. by split.
  - right. eexists. split; [by left|].
    unfold debug, emit, logged, pulls_request. simpl. by rewrite <- app_assoc.
Qed.

(** ** Looking for the instructions comment *)

Lemma substring_append (n m : nat) (b t : string) :
  (n + m <= String.length b)%nat -> substring n m (b +:+ t) = substring n m b.
Proof.
  revert n m. induction b as [|c b IH]; intros n m Hlen; simpl in Hlen.
  - assert (n = 0%nat) as -> by lia. assert (m = 0%nat) as -> by lia.
    by destruct t.
  - destruct n as [|n], m as [|m]; simpl.
    + reflexivity.
    + f_equal. apply IH. simpl. lia.
    + apply IH. lia.
    + apply IH. lia.
Qed.

Lemma scanInstructions_same_verdict (cfg : config) (before after : list comment)
    (b b' : string) (instructed : bool) (s : state) :
  same_instructions cfg b = same_instructions cfg b' ->
  scanInstructions cfg (before ++ mkComment (Some b) :: after) instructed s
  = scanInstructions cfg (before ++ mkComment (Some b') :: after) instructed s.
Proof.
  intros Hsame. revert instructed.
  induction before as [|c before IH]; intros instructed; simpl.
  - by rewrite Hsame.
  - destruct (body c) as [b0|]; [|reflexivity].
    destruct (same_instructions cfg b0); [reflexivity | apply IH].
Qed.

(** X8: only the code units 2 to 30 of a comment count.  Two comments
    that differ in their first code unit and in what follows the 30th give
    the same run, whatever the other comments are. *)
Theorem instructions_window (cfg : config) (prNumber : value) (callback : bool)
    (before after : list comment) (c c' : ascii) (w t t' : string)
    (h : gmap loc (list string)) :
  (29 <= String.length w)%nat ->
  run (checkForInstructionsComment cfg prNumber callback
         (Succeeded (before ++ mkComment (Some (String c (w +:+ t))) :: after))) h
  = run (checkForInstructionsComment cfg prNumber callback
           (Succeeded (before ++ mkComment (Some (String c' (w +:+ t'))) :: after))) h.
Proof.
  intros Hw. rewrite !checkForInstructionsComment_run.
  rewrite (scanInstructions_same_verdict cfg before after
             (String c (w +:+ t)) (String c' (w +:+ t'))); [reflexivity|].
  unfold same_instructions, slice. simpl.
  by rewrite !substring_append by (simpl; lia).
Qed.

Lemma instructions_window_witness :
  run (checkForInstructionsComment cfg0 (VNum 7) true
         (Succeeded ([] ++ mkComment (Some (String "H" ("ello, thanks for the pull req"
                                                        +:+ "uest!"))) :: []))) ∅
  = run (checkForInstructionsComment cfg0 (VNum 7) true
           (Succeeded ([] ++ mkComment (Some (String "J" ("ello, thanks for the pull req"
                                                          +:+ ", but no"))) :: []))) ∅.
Proof.
  apply (instructions_window cfg0 (VNum 7) true [] [] "H" "J"
           "ello, thanks for the pull req" "uest!" ", but no").
  simpl. lia.
Defined.

Lemma scanInstructions_template (cfg : config) (before after : list comment)
    (instructed : bool) (s : state) :
  Forall (fun c => is_Some (body c)) before ->
  scanInstructions cfg
    (before ++ mkComment (Some (instructionsComment cfg)) :: after) instructed s
  = (Return true, s).
Proof.
  intros Hbefore. revert instructed.
  induction Hbefore as [|c before [b Hb] _ IH]; intros instructed; simpl.
  - unfold same_instructions. by rewrite String.eqb_refl.
  - rewrite Hb. destruct (same_instructions cfg b); [reflexivity | apply IH].
Qed.

Lemma comment_is_method : ["issues"; "createComment"] ∈ github_methods.
Proof. unfold github_methods. set_solver. Qed.

Lemma postInstructionsComment_run (cfg : config) (prNumber : value)
    (callback : bool) (resp : response value) (h : gmap loc (list string)) :
  run (postInstructionsComment cfg prNumber callback resp) h =
  if authenticates cfg
  then (Return tt,
        mkState h
          (Authenticate (OAuth (oauth2key cfg) (oauth2secret cfg))
           :: comment_request cfg prNumber
           :: reaction "postInstructionsComment: Error while trying to post instructions:"
                callback resp))
  else (Throw (Error "Fatal: No username/password or no Oauth2 key/secret configured!"),
        mkState h []).
Proof.
  unfold run, postInstructionsComment. rewrite bind_run, _authenticate_run.
  destruct (authenticates cfg); [|reflexivity].
  rewrite bind_run, github_call_method by apply comment_is_method.
  unfold debug, emit, skip, mret, M_ret, comment_request, reaction.
  by destruct resp as [error|result]; [|destruct callback].
Qed.

(** X9: what [postInstructionsComment] posts, [checkForInstructionsComment]
    finds.  With a configuration that authenticates, the body of the one
    comment request is the template, and once a comment with that body is
    among the fetched comments, after comments that all have a body, the
    continuation gets [true]. *)
Theorem posted_instructions_are_found (cfg : config) (prNumber : value)
    (callback : bool) (resp : response value) (before after : list comment)
    (h : gmap loc (list string)) :
  authenticates cfg = true ->
  Forall (fun c => is_Some (body c)) before ->
  exists b,
    Request ["issues"; "createComment"]
      [("user", VStr (user cfg)); ("repo", VStr (repo cfg)); ("number", prNumber);
       ("body", VStr b)]
      ∈ trace (run (postInstructionsComment cfg prNumber callback resp) h).2
    /\ run (checkForInstructionsComment cfg prNumber true
              (Succeeded (before ++ mkComment (Some b) :: after))) h
       = (Return tt,
          mkState h [comments_request cfg prNumber; Callback (VBool true)]).
Proof.
  intros Hauth Hbefore. exists (instructionsComment cfg). split.
  - rewrite postInstructionsComment_run, Hauth. simpl.
    apply elem_of_cons. right. apply elem_of_cons. by left.
  - by rewrite checkForInstructionsComment_run, scanInstructions_template.
Qed.

Lemma posted_instructions_are_found_witness :
  exists b,
    Request ["issues"; "createComment"]
      [("user", VStr (user cfg0)); ("repo", VStr (repo cfg0)); ("number", VNum 7);
       ("body", VStr b)]
      ∈ trace (run (postInstructionsComment cfg0 (VNum 7) true (Succeeded (VObj 0))) ∅).2
    /\ run (checkForInstructionsComment cfg0 (VNum 7) true
              (Succeeded ([mkComment (Some "LGTM")] ++ mkComment (Some b) :: []))) ∅
       = (Return tt,
          mkState ∅ [comments_request cfg0 (VNum 7); Callback (VBool true)]).
Proof.
  apply (posted_instructions_are_found cfg0 (VNum 7) true (Succeeded (VObj 0))
           [mkComment (Some "LGTM")] [] ∅ eq_refl).
  constructor; [by eexists | constructor].
Defined.

(** X10: a fetched comment without a body, met before any match, ends the
    scan in a TypeError: the request has left, the continuation is never
    called, whatever comes after that comment. *)
Theorem instructions_scan_raises_without_body (cfg : config) (prNumber : value)
    (callback : bool) (before after : list comment) (c : comment)
    (h : gmap loc (list string)) :
  Forall (other_comment cfg) before ->
  body c = None ->
  run (checkForInstructionsComment cfg prNumber callback
         (Succeeded (before ++ c :: after))) h
  = (Throw (TypeError "Cannot read property 'slice' of undefined"),
     mkState h [comments_request cfg prNumber]).
Proof.
  intros Hbefore Hc.
  rewrite checkForInstructionsComment_run, scanInstructions_others by done.
  assert (Hraise : forall i s,
            scanInstructions cfg (c :: after) i s
            = (Throw (TypeError "Cannot read property 'slice' of undefined"), s)).
  { intros i s. simpl. by rewrite Hc. }
  destruct before; by rewrite Hraise.
Qed.

Lemma instructions_scan_raises_without_body_witness :
  run (checkForInstructionsComment cfg0 (VNum 7) true
         (Succeeded ([mkComment (Some "LGTM")] ++ mkComment None
                     :: [mkComment (Some "Hello, thanks for the pull request!")]))) ∅
  = (Throw (TypeError "Cannot read property 'slice' of undefined"),
     mkState ∅ [comments_request cfg0 (VNum 7)]).
Proof.
  apply (instructions_scan_raises_without_body cfg0 (VNum 7) true
           [mkComment (Some "LGTM")]); [|reflexivity].
  constructor; [|constructor]. exists "LGTM". split; [reflexivity|].
  vm_compute. discriminate.
Defined.

(** X11: [checkForInstructionsComment] has no guard on its PR number:
    for every number, [undefined] too, the request leaves with that
    number, exactly once, without authentication and before anything
    else. *)
Theorem checkForInstructionsComment_unguarded (cfg : config) (prNumber : value)
    (callback : bool) (resp : response (list comment)) (h : gmap loc (list string)) :
  let tr := trace (run (checkForInstructionsComment cfg prNumber callback resp) h).2 in
  head tr = Some (comments_request cfg prNumber)
  /\ requests ["issues"; "getComments"] tr = 1%nat
  /\ forall c, Authenticate c ∉ tr.
Proof.
  intros tr. subst tr. rewrite checkForInstructionsComment_run.
  destruct resp as [error|result].
  - simpl. repeat split. intros c Hin. unfold comments_request in Hin. not_logged Hin.
  - pose proof (scanInstructions_state cfg result false
                  (mkState h [comments_request cfg prNumber])) as Hstate.
    destruct (scanInstructions _ _ _ _) as [[instructed|e] s]; simpl in Hstate; subst s;
      [destruct callback|]; simpl; repeat split;
      intros c Hin; unfold comments_request in Hin; not_logged Hin.
Qed.

(** ** More on the label update *)

Lemma indexOf_not_present (x : string) (L : list string) :
  (indexOf_from x L 0 >? -1) = false -> x ∉ L.
Proof. intros Hidx Hin. by rewrite (indexOf_present _ _ Hin) in Hidx. Qed.

Lemma indexOf_is_absent (x : string) (L : list string) :
  (indexOf_from x L 0 =? -1) = true -> x ∉ L.
Proof. intros Hidx Hin. by rewrite (indexOf_present_ne _ _ Hin) in Hidx. Qed.

Lemma insufficient_false (prNumber approved : value) :
  insufficient prNumber approved = false ->
  truthy prNumber = true /\ approved = VBool (truthy approved).
Proof.
  unfold insufficient. intros H. apply orb_false_iff in H as [Happroved Hpr].
  apply negb_false_iff in Hpr. split; [exact Hpr|].
  by destruct approved as [| |[|]| | | |].
Qed.

(** The first phase of [updateLabels], by what it does to the heap: it
    stops at the guard, raises in a removal branch, adds the wanted label
    to the array [l] that [labels] names after line 193, or changes
    nothing. *)
Lemma updateLabels_delta_cases (cfg : config) (prNumber approved : value)
    (labels : option loc) (h : gmap loc (list string)) :
  exists l h1,
    normalise_labels labels (mkState h []) = (Return l, mkState h1 [])
    /\ let L := default [] (h1 !! l) in
       let b := truthy approved in
       (insufficient prNumber approved = true
        /\ updateLabels_delta cfg prNumber approved labels (mkState h [])
           = (Return None,
              mkState h1 [Debug "labelPullRequest: insufficient parameters"]))
       \/ (insufficient prNumber approved = false
           /\ unwanted_label cfg b ∈ L
           /\ updateLabels_delta cfg prNumber approved labels (mkState h [])
              = (Throw (TypeError "labels.removeAt is not a function"), mkState h1 []))
       \/ (insufficient prNumber approved = false
           /\ (unwanted_label cfg b ∉ L) /\ (wanted_label cfg b ∉ L)
           /\ updateLabels_delta cfg prNumber approved labels (mkState h [])
              = (Return (Some (l, true)),
                 mkState (<[l := L ++ [wanted_label cfg b]]> h1) []))
       \/ (insufficient prNumber approved = false
           /\ (unwanted_label cfg b ∉ L) /\ wanted_label cfg b ∈ L
           /\ updateLabels_delta cfg prNumber approved labels (mkState h [])
              = (Return (Some (l, false)), mkState h1 [])).
Proof.
  destruct (normalise_labels_frame labels (mkState h [])) as (l & [h1 tr1] & Hnorm & Htr & _).
  simpl in Htr. subst tr1. exists l, h1. split; [exact Hnorm|].
  rewrite updateLabels_delta_run, Hnorm.
  destruct (insufficient prNumber approved); [by left | right].
  rewrite adjustLabels_run. simpl.
  destruct (decide (unwanted_label cfg (truthy approved) ∈ default [] (h1 !! l)))
    as [Hun|Hun]; [left | right].
  { split; [reflexivity|]. split; [exact Hun|].
    destruct (truthy approved); simpl in *; by rewrite (indexOf_present _ _ Hun). }
  destruct (decide (wanted_label cfg (truthy approved) ∈ default [] (h1 !! l)))
    as [Hw|Hw]; [right | left].
  - split; [reflexivity|]. split; [exact Hun|]. split; [exact Hw|].
    destruct (truthy approved); simpl in *;
      by rewrite (indexOf_absent _ _ Hun), (indexOf_present_ne _ _ Hw).
  - split; [reflexivity|]. split; [exact Hun|]. split; [exact Hw|].
    destruct (truthy approved); simpl in *;
      by rewrite (indexOf_absent _ _ Hun), (indexOf_absent _ _ Hw).
Qed.

(** The whole call on top of the first phase. *)
Lemma updateLabels_after_delta (cfg : config) (prNumber approved : value)
    (labels : option loc) (callback : bool) (resp : response value) (s : state) :
  updateLabels cfg prNumber approved labels callback resp s
  = match updateLabels_delta cfg prNumber approved labels s with
    | (Return (Some (l, true)), s') =>
        updateLabels_submit cfg prNumber l callback resp s'
    | (Return _, s') => (Return tt, s')
    | (Throw e, s') => (Throw e, s')
    end.
Proof.
  unfold updateLabels. rewrite bind_run.
  by destruct (updateLabels_delta _ _ _ _ _) as [[[[l [|]]|]|e] s'].
Qed.

(** Line 193 hands on the array of the caller, or a new one. *)
Lemma normalise_labels_cases (labels : option loc) (h h1 : gmap loc (list string))
    (l : loc) :
  normalise_labels labels (mkState h []) = (Return l, mkState h1 []) ->
  (labels = Some l /\ h1 = h)
  \/ (l = fresh (dom h) /\ h1 = <[fresh (dom h) := []]> h).
Proof.
  destruct labels as [l0|]; simpl.
  - unfold read_array. rewrite bind_run. simpl.
    destruct (Nat.eqb _ 0); intros [= <- <-]; [by right | by left].
  - intros [= <- <-]. by right.
Qed.

(** X12: [updateLabels] never takes anything out of an array.  Whatever
    the arguments, the configuration and the answer of the forge, every
    array of the caller holds after the call what it held before, except
    that the array passed as [labels] may have got the wanted label at
    its end. *)
Theorem updateLabels_arrays_grow (cfg : config) (prNumber approved : value)
    (labels : option loc) (callback : bool) (resp : response value)
    (h : gmap loc (list string)) (l0 : loc) (L0 : list string) :
  h !! l0 = Some L0 ->
  let h' := heap (run (updateLabels cfg prNumber approved labels callback resp) h).2 in
  h' !! l0 = Some L0
  \/ (labels = Some l0
      /\ h' !! l0 = Some (L0 ++ [wanted_label cfg (truthy approved)])).
Proof.
  intros Hl0 h'. subst h'. unfold run. rewrite updateLabels_after_delta.
  destruct (updateLabels_delta_cases cfg prNumber approved labels h)
    as (l & h1 & Hnorm & Hcases).
  assert (Hh1 : h1 !! l0 = Some L0).
  { apply normalise_labels_cases in Hnorm as [[_ ->]|[_ ->]]; [done|].
    rewrite lookup_insert_ne; [done|].
    intros Heq. apply (is_fresh (dom h)). rewrite Heq. apply elem_of_dom. by exists L0. }
  destruct Hcases as [(_ & ->)|[(_ & _ & ->)|[(_ & _ & _ & ->)|(_ & _ & _ & ->)]]];
    simpl; try (by left).
  rewrite updateLabels_submit_heap. simpl.
  destruct (decide (l = l0)) as [->|Hne].
  - right. rewrite lookup_insert_eq, Hh1. simpl. split; [|reflexivity].
    apply normalise_labels_cases in Hnorm as [[-> _]|[Hfresh _]]; [reflexivity|].
    exfalso. apply (is_fresh (dom h)). rewrite <- Hfresh. apply elem_of_dom. by exists L0.
  - left. by rewrite lookup_insert_ne.
Qed.

Lemma updateLabels_arrays_grow_witness :
  let h' := heap (run (updateLabels cfg0 (VNum 7) (VBool false) (Some 1%positive) true
                         (Failed (VStr "timeout")))
                    {[ 1%positive := ["bug"] ]}).2 in
  h' !! 1%positive = Some ["bug"]
  \/ (Some 1%positive = Some 1%positive
      /\ h' !! 1%positive = Some (["bug"] ++ [wanted_label cfg0 (truthy (VBool false))])).
Proof.
  apply (updateLabels_arrays_grow cfg0 (VNum 7) (VBool false) (Some 1%positive) true
           (Failed (VStr "timeout")) {[ 1%positive := ["bug"] ]} 1%positive ["bug"]).
  reflexivity.
Defined.

(** X13: an edit that did not get through is not tried again.  After a
    call that added a label to the (not empty) array of the caller,
    whether its request was answered, failed or never left for want of
    credentials, a second call with the same arguments and the same array
    logs nothing: no request, no diagnostic, no continuation. *)
Theorem updateLabels_no_second_edit (cfg : config) (prNumber approved : value)
    (l : loc) (L : list string) (callback callback' : bool)
    (resp resp' : response value) (h : gmap loc (list string)) :
  h !! l = Some L ->
  L <> [] ->
  changed_flag cfg prNumber approved (Some l) h = true ->
  let h' := heap (run (updateLabels cfg prNumber approved (Some l) callback resp) h).2 in
  updateLabels_log cfg prNumber approved (Some l) callback' resp' h' = [].
Proof.
  intros Hl HL Hflag h'.
  assert (Hfirst : insufficient prNumber approved = false
            /\ h' = <[l := L ++ [wanted_label cfg (truthy approved)]]> h).
  { subst h'. unfold changed_flag, run in *. rewrite updateLabels_after_delta.
    destruct (updateLabels_delta_cases cfg prNumber approved (Some l) h)
      as (l1 & h1 & Hnorm & Hcases).
    rewrite (normalise_labels_keeps l L) in Hnorm by done.
    injection Hnorm as <- <-. simpl in Hcases. rewrite Hl in Hcases. simpl in Hcases.
    destruct Hcases as [(_ & Heq)|[(_ & _ & Heq)|[(Hins & _ & _ & Heq)|(_ & _ & _ & Heq)]]];
      rewrite Heq in *; try discriminate.
    by rewrite updateLabels_submit_heap. }
  destruct Hfirst as [Hins Hh']. clearbody h'. subst h'.
  unfold updateLabels_log, run. rewrite updateLabels_after_delta.
  destruct (updateLabels_delta_cases cfg prNumber approved (Some l)
              (<[l := L ++ [wanted_label cfg (truthy approved)]]> h))
    as (l1 & h1 & Hnorm & Hcases).
  rewrite (normalise_labels_keeps l (L ++ [wanted_label cfg (truthy approved)])) in Hnorm;
    [|apply lookup_insert_eq | by destruct L].
  injection Hnorm as <- <-. simpl in Hcases. rewrite lookup_insert_eq in Hcases.
  simpl in Hcases.
  destruct Hcases as [(Hins' & _)|[(_ & _ & ->)|[(_ & _ & Hw & _)|(_ & _ & _ & ->)]]].
  - congruence.
  - reflexivity.
  - exfalso. apply Hw. apply elem_of_app. right. apply elem_of_cons. by left.
  - reflexivity.
Qed.

Lemma updateLabels_no_second_edit_witness :
  updateLabels_log cfg_none (VNum 7) (VBool true) (Some 1%positive) true
    (Succeeded (VObj 0))
    (heap (run (updateLabels cfg_none (VNum 7) (VBool true) (Some 1%positive) true
                  (Succeeded (VObj 0))) {[ 1%positive := ["bug"] ]}).2)
  = [].
Proof.
  apply (updateLabels_no_second_edit cfg_none (VNum 7) (VBool true) 1%positive ["bug"]).
  - reflexivity.
  - discriminate.
  - reflexivity.
Defined.

(** The log of [updateLabels] has one of four shapes. *)
Lemma updateLabels_log_shape (cfg : config) (prNumber approved : value)
    (labels : option loc) (callback : bool) (resp : response value)
    (h : gmap loc (list string)) :
  let log := updateLabels_log cfg prNumber approved labels callback resp h in
  log = []
  \/ log = [Debug "labelPullRequest: insufficient parameters"]
  \/ exists L,
       insufficient prNumber approved = false
       /\ (unwanted_label cfg (truthy approved) ∉ L)
       /\ log = Authenticate (OAuth (oauth2key cfg) (oauth2secret cfg))
                :: edit_request cfg prNumber (L ++ [wanted_label cfg (truthy approved)])
                :: reaction "labelPullRequest: error while trying to label PR: "
                     callback resp.
Proof.
  intros log. subst log. unfold updateLabels_log, run. rewrite updateLabels_after_delta.
  destruct (updateLabels_delta_cases cfg prNumber approved labels h)
    as (l & h1 & _ & Hcases).
  destruct Hcases as [(_ & ->)|[(_ & _ & ->)|[(Hins & Hun & _ & ->)|(_ & _ & _ & ->)]]];
    simpl; auto.
  rewrite updateLabels_submit_run. destruct (authenticates cfg); simpl; [|by left].
  right. right. exists (default [] (h1 !! l)). rewrite lookup_insert_eq. by simpl.
Qed.

(** X14: whenever [updateLabels] sends an edit request, the call had a PR
    number and a boolean [approved], the log is the authentication, that
    one request and what the continuation did (so there is at most one
    request and one call of the continuation per call), and the label
    names submitted hold the label that [approved] calls for; with two
    different configured names they do not hold the other one. *)
Theorem updateLabels_submits_wanted (cfg : config) (prNumber approved : value)
    (labels : option loc) (callback : bool) (resp : response value)
    (h : gmap loc (list string)) :
  (0 < requests ["issues"; "edit"]
         (updateLabels_log cfg prNumber approved labels callback resp h))%nat ->
  exists L',
    truthy prNumber = true
    /\ approved = VBool (truthy approved)
    /\ updateLabels_log cfg prNumber approved labels callback resp h
       = Authenticate (OAuth (oauth2key cfg) (oauth2secret cfg))
         :: edit_request cfg prNumber L'
         :: reaction "labelPullRequest: error while trying to label PR: " callback resp
    /\ wanted_label cfg (truthy approved) ∈ L'
    /\ (labelNeedsReview cfg <> labelReviewed cfg ->
        unwanted_label cfg (truthy approved) ∉ L').
Proof.
  intros Hreq.
  destruct (updateLabels_log_shape cfg prNumber approved labels callback resp h)
    as [Hlog|[Hlog|(L & Hins & Hun & Hlog)]]; rewrite Hlog in Hreq.
  - unfold requests in Hreq. simpl in Hreq. lia.
  - unfold requests in Hreq. simpl in Hreq. lia.
  - apply insufficient_false in Hins as [Hpr Happroved].
    exists (L ++ [wanted_label cfg (truthy approved)]).
    split; [exact Hpr|]. split; [exact Happroved|]. split; [exact Hlog|]. split.
    + apply elem_of_app. right. apply elem_of_cons. by left.
    + intros Hne Hin. apply elem_of_app in Hin as [Hin|Hin]; [by apply Hun|].
      apply elem_of_cons in Hin as [Heq|Hin]; [|by apply elem_of_nil in Hin].
      destruct (truthy approved); simpl in Heq; congruence.
Qed.

Lemma updateLabels_submits_wanted_witness :
  exists L',
    truthy (VNum 7) = true
    /\ VBool false = VBool (truthy (VBool false))
    /\ updateLabels_log cfg0 (VNum 7) (VBool false) None true (Failed VNull) ∅
       = Authenticate (OAuth (oauth2key cfg0) (oauth2secret cfg0))
         :: edit_request cfg0 (VNum 7) L'
         :: reaction "labelPullRequest: error while trying to label PR: " true
              (Failed VNull)
    /\ wanted_label cfg0 (truthy (VBool false)) ∈ L'
    /\ (labelNeedsReview cfg0 <> labelReviewed cfg0 ->
        unwanted_label cfg0 (truthy (VBool false)) ∉ L').
Proof.
  apply (updateLabels_submits_wanted cfg0 (VNum 7) (VBool false) None true
           (Failed VNull) ∅).
  vm_compute. lia.
Defined.

(** ** Authentication and the requests that change something *)

Lemma requests_follow_reaction (msg : string) (callback : bool)
    (resp : response value) (authenticated : bool) :
  requests_follow authenticated (reaction msg callback resp) = true.
Proof. by destruct resp as [error|result]; [|destruct callback]. Qed.

(** X15: in every log of [updateLabels] and of [postInstructionsComment],
    each request comes right after an authentication: these two never
    send anything with the credentials of an earlier call, for any
    arguments, configuration and answer. *)
Theorem mutating_requests_authenticated (cfg : config) (prNumber approved : value)
    (labels : option loc) (callback : bool) (resp : response value)
    (h : gmap loc (list string)) :
  authenticated_requests
    (updateLabels_log cfg prNumber approved labels callback resp h) = true
  /\ authenticated_requests
       (trace (run (postInstructionsComment cfg prNumber callback resp) h).2) = true.
Proof.
  unfold authenticated_requests. split.
  - destruct (updateLabels_log_shape cfg prNumber approved labels callback resp h)
      as [->|[->|(L & _ & _ & ->)]]; try reflexivity.
    simpl. apply requests_follow_reaction.
  - rewrite postInstructionsComment_run. destruct (authenticates cfg); [|reflexivity].
    simpl. apply requests_follow_reaction.
Qed.

(** X16: [_authenticate] goes through exactly when all four credentials
    are configured; it then hands the OAuth pair to the client, and in no
    case the user name and password. *)
Theorem authenticate_iff_all_credentials (cfg : config) (h : gmap loc (list string)) :
  ((run (_authenticate cfg) h).1 = Return tt
   <-> truthy (botUser cfg) = true /\ truthy (botPassword cfg) = true
       /\ truthy (oauth2key cfg) = true /\ truthy (oauth2secret cfg) = true)
  /\ (forall c,
        Authenticate c ∈ trace (run (_authenticate cfg) h).2 ->
        c = OAuth (oauth2key cfg) (oauth2secret cfg)).
Proof.
  unfold run. rewrite _authenticate_run. unfold authenticates. split.
  - destruct (truthy (botUser cfg)), (truthy (botPassword cfg)),
      (truthy (oauth2key cfg)), (truthy (oauth2secret cfg)); simpl;
      split; try discriminate; intuition discriminate.
  - intros c. destruct (_ && _); simpl; intros Hin.
    + apply elem_of_cons in Hin as [[= ->]|Hin]; [reflexivity | by apply elem_of_nil in Hin].
    + by apply elem_of_nil in Hin.
Qed.

(** X17: [merge] never returns normally.  For every configuration,
    number and answer it ends in an exception (the fatal error of
    [_authenticate], or the TypeError of calling the name space), and its
    log holds no request of any kind and no call of the continuation. *)
Theorem merge_always_raises (cfg : config) (prNumber : value) (callback : bool)
    (resp : response value) (h : gmap loc (list string)) :
  exists e tr,
    run (merge cfg prNumber callback resp) h = (Throw e, mkState h tr)
    /\ List.filter is_any_request tr = []
    /\ callbacks tr = 0%nat.
Proof.
  unfold run, merge. rewrite bind_run, _authenticate_run.
  destruct (authenticates cfg); simpl; eexists _, _; repeat split.
Qed.
